(** * IgniteGym: session context and form screens

    A shallow embedding of the authentication context
    ([AuthContextProvider]) and of the sign-up and profile screens,
    together with the properties of the session lifecycle and of the
    validation schemas.

    The asynchronous functions of the source are written in a small
    state-and-exception monad.  A run of a handler is driven by an
    environment that says which awaited calls reject and what the fulfilled
    ones return; every awaited call (a suspend point) and every state setter
    leaves an event in a trace, so that ordering properties can be stated. *)

From Stdlib Require Import String Ascii List Bool Arith ZArith QArith Lia.
Import ListNotations.

Local Close Scope Q_scope.
Local Open Scope nat_scope.
Local Open Scope string_scope.
Local Open Scope list_scope.

(** ** JavaScript values that occur in the forms *)

Module Js.

(** A form field holds [undefined] (never touched), [null] or a string. *)
Inductive JsVal :=
| Undefined
| Null
| Str (s : string).

Definition JsVal_eqb (a b : JsVal) : bool :=
  match a, b with
  | Undefined, Undefined => true
  | Null, Null => true
  | Str s, Str t => String.eqb s t
  | _, _ => false
  end.

(** Truthiness of a string-or-absent value: [undefined], [null] and the
    empty string are falsy. *)
Definition truthy (v : JsVal) : bool :=
  match v with
  | Str s => negb (String.eqb s "")
  | _ => false
  end.

(** [value?.length], with [undefined] read as 0 where the source only
    tests it for truth or compares it after a truth test. *)
Definition opt_length (v : JsVal) : nat :=
  match v with
  | Str s => String.length s
  | _ => 0
  end.

(** [value || null] *)
Definition or_null (v : JsVal) : JsVal :=
  if truthy v then v else Null.

(** Template-literal conversion [`${v}`] of an optional string. *)
Definition template (v : option string) : string :=
  match v with
  | Some s => s
  | None => "undefined"
  end.

(** Truthiness of an optional string such as a token. *)
Definition truthy_string (v : option string) : option string :=
  match v with
  | Some s => if String.eqb s "" then None else Some s
  | None => None
  end.

(** The segments of [s] between occurrences of [sep]. *)
Fixpoint split (sep : ascii) (s : string) : list string :=
  match s with
  | EmptyString => [EmptyString]
  | String c s' =>
      if Ascii.eqb c sep then EmptyString :: split sep s'
      else match split sep s' with
           | seg :: segs => String c seg :: segs
           | [] => [String c EmptyString]
           end
  end.

(** [array.pop()] on the result of a split, which is never empty. *)
Definition pop (segments : list string) : string :=
  last segments EmptyString.

(** ASCII lower-casing, for [toLowerCase()]. *)
Definition lower (c : ascii) : ascii :=
  let n := nat_of_ascii c in
  if (65 <=? n)%nat && (n <=? 90)%nat then ascii_of_nat (n + 32) else c.

Fixpoint toLowerCase (s : string) : string :=
  match s with
  | EmptyString => EmptyString
  | String c s' => String (lower c) (toLowerCase s')
  end.

End Js.

(** ** Data model *)

(** Modelled from the spec: the type [UserDTO] of [@dtos/UserDTO], which is
    not among the sources: identifier, name, e-mail and an optional avatar
    reference.  The context builds the logged-out sentinel as
    [{} as UserDTO], an object with none of the fields, so every field may
    be missing. *)
Module DTO.
Record UserDTO := mkUser {
  id : option string;
  name : option string;
  email : option string;
  avatar : option string
}.
End DTO.
Abbreviation UserDTO := DTO.UserDTO.
Abbreviation mkUser := DTO.mkUser.

(** [{} as UserDTO] *)
Definition empty_user : UserDTO := mkUser None None None None.

(** Modelled from the spec: [AppError] of [@utils/AppError], which is not
    among the sources.  An error is either a tagged application error
    carrying a user-facing message or an untyped failure. *)
Inductive Error :=
| AppError (message : string)
| Failure (what : string).

(** The file object appended to the multipart form. *)
Record PhotoFile := mkPhotoFile {
  file_name : string;
  file_uri : string;
  file_type : string
}.

(** The awaited calls: the suspend points of the handlers. *)
Inductive Call :=
| api_post (url : string) (body : list (string * string))
| api_patch (url : string) (form : list (string * PhotoFile))
| AsyncStorage_setUser (u : UserDTO)
| AsyncStorage_getUser
| AsyncStorage_removeUser
| AsyncStorage_setToken (t : string)
| AsyncStorage_getToken
| AsyncStorage_removeToken
| launchImageLibraryAsync
| getInfoAsync (uri : string).

(** What happens during a run, in order. *)
Inductive Event :=
| Await (c : Call)
| SetIsLoadingUserStorage (b : bool)
| SetUser (u : UserDTO)
| SetAuthorization (h : string)
| SetIsLoading (b : bool)
| SetPhotoIsLoading (b : bool)
| ToastShow (title bgColor : string)
| ConsoleLog.

(** The body of the [/sessions] response: [data.user] and [data.token],
    either of which may be missing. *)
Record SessionData := mkSessionData {
  data_user : option UserDTO;
  data_token : option string
}.

Record Asset := mkAsset {
  uri : string;
  type : option string
}.

Record ImagePickerResult := mkPicked {
  canceled : bool;
  assets : list Asset
}.

(** The environment of one run of a handler. *)
Record Env := mkEnv {
  rejects : Call -> option Error;
  sessions_data : SessionData;
  avatar_data : option string;
  photoSelected : ImagePickerResult;
  photoInfo_size : option Z
}.

(** The state the handlers act on: the two React states of the context,
    the default header of the HTTP client, the two storage keys, and the
    trace of the events so far. *)
Record World := mkWorld {
  user : UserDTO;
  isLoadingUserStorage : bool;
  Authorization : option string;
  USER_STORAGE : option UserDTO;
  AUTH_TOKEN_STORAGE : option string;
  trace : list Event
}.

(** ** The monad of the asynchronous functions *)

Inductive Outcome (A : Type) :=
| Returned (a : A)
| Thrown (e : Error).
Arguments Returned {A} a.
Arguments Thrown {A} e.

Definition M (A : Type) : Type := Env -> World -> Outcome A * World.

Definition ret {A} (a : A) : M A := fun _ w => (Returned a, w).

Definition bind {A B} (m : M A) (k : A -> M B) : M B :=
  fun env w =>
    match m env w with
    | (Returned a, w') => k a env w'
    | (Thrown e, w') => (Thrown e, w')
    end.

Definition throw {A} (e : Error) : M A := fun _ w => (Thrown e, w).

Declare Scope async_scope.
Delimit Scope async_scope with async.
Notation "x <- m ;; k" := (bind m (fun x => k))
  (at level 61, m at next level, right associativity) : async_scope.
Notation "m ;; k" := (bind m (fun _ => k))
  (at level 61, right associativity) : async_scope.
Local Open Scope async_scope.

(** [try { body } catch (error) { handler }] *)
Definition try_catch {A} (body : M A) (handler : Error -> M A) : M A :=
  fun env w =>
    match body env w with
    | (Returned a, w') => (Returned a, w')
    | (Thrown e, w') => handler e env w'
    end.

(** [try { body } finally { cleanup }]: the cleanup runs on every exit; a
    cleanup that itself throws replaces the outcome. *)
Definition try_finally {A} (body : M A) (cleanup : M unit) : M A :=
  fun env w =>
    let '(r, w') := body env w in
    match cleanup env w' with
    | (Returned _, w'') => (r, w'')
    | (Thrown e, w'') => (Thrown e, w'')
    end.

Definition emit (ev : Event) : M unit :=
  fun _ w =>
    (Returned tt,
     mkWorld (user w) (isLoadingUserStorage w) (Authorization w)
             (USER_STORAGE w) (AUTH_TOKEN_STORAGE w) (trace w ++ [ev])).

Definition modify (f : World -> World) : M unit :=
  fun _ w => (Returned tt, f w).

Definition ask {A} (f : Env -> A) : M A := fun env w => (Returned (f env), w).
Definition get {A} (f : World -> A) : M A := fun _ w => (Returned (f w), w).

(** An awaited call: it is recorded, and it rejects when the environment
    says so. *)
Definition await (c : Call) : M unit :=
  emit (Await c) ;;
  r <- ask (fun env => rejects env c) ;;
  match r with
  | Some e => throw e
  | None => ret tt
  end.

(** State setters. *)
Definition with_user (u : UserDTO) (w : World) : World :=
  mkWorld u (isLoadingUserStorage w) (Authorization w)
          (USER_STORAGE w) (AUTH_TOKEN_STORAGE w) (trace w).
Definition with_loading (b : bool) (w : World) : World :=
  mkWorld (user w) b (Authorization w)
          (USER_STORAGE w) (AUTH_TOKEN_STORAGE w) (trace w).
Definition with_Authorization (h : option string) (w : World) : World :=
  mkWorld (user w) (isLoadingUserStorage w) h
          (USER_STORAGE w) (AUTH_TOKEN_STORAGE w) (trace w).
Definition with_USER_STORAGE (u : option UserDTO) (w : World) : World :=
  mkWorld (user w) (isLoadingUserStorage w) (Authorization w)
          u (AUTH_TOKEN_STORAGE w) (trace w).
Definition with_AUTH_TOKEN_STORAGE (t : option string) (w : World) : World :=
  mkWorld (user w) (isLoadingUserStorage w) (Authorization w)
          (USER_STORAGE w) t (trace w).

Definition setUser (u : UserDTO) : M unit :=
  emit (SetUser u) ;; modify (with_user u).

Definition setIsLoadingUserStorage (b : bool) : M unit :=
  emit (SetIsLoadingUserStorage b) ;; modify (with_loading b).

(** [api.defaults.headers.common.Authorization = ...] *)
Definition setAuthorization (h : string) : M unit :=
  emit (SetAuthorization h) ;; modify (with_Authorization (Some h)).

(** The template literal [`Bearer ${token}`]. *)
Definition Bearer (token : string) : string := String.append "Bearer " token.

(** ** Persistent key-value store wrapper *)

Module Storage.

(** Modelled from the spec: [storageUserSave] of [@storage/storageUser],
    which is not among the sources.  It saves the serialized user record
    under its key; a rejected write leaves the key as it was. *)
Definition storageUserSave (u : UserDTO) : M unit :=
  await (AsyncStorage_setUser u) ;;
  modify (with_USER_STORAGE (Some u)).

(** Modelled from the spec: [storageUserGet] of [@storage/storageUser]
    retrieves the user record saved under its key, and nothing (a falsy
    value) when the key is absent. *)
Definition storageUserGet : M (option UserDTO) :=
  await AsyncStorage_getUser ;;
  get USER_STORAGE.

(** Modelled from the spec: [storageUserRemove] of [@storage/storageUser]
    removes the user key; a rejected removal leaves it. *)
Definition storageUserRemove : M unit :=
  await AsyncStorage_removeUser ;;
  modify (with_USER_STORAGE None).

(** Modelled from the spec: [storageAuthTokenSave] of
    [@storage/storageAuthToken] saves the token string under the second
    key. *)
Definition storageAuthTokenSave (t : string) : M unit :=
  await (AsyncStorage_setToken t) ;;
  modify (with_AUTH_TOKEN_STORAGE (Some t)).

(** Modelled from the spec: [storageAuthTokenGet] of
    [@storage/storageAuthToken] retrieves the token string, [null] when
    the key is absent. *)
Definition storageAuthTokenGet : M (option string) :=
  await AsyncStorage_getToken ;;
  get AUTH_TOKEN_STORAGE.

(** Modelled from the spec: [storageAuthTokenRemove] of
    [@storage/storageAuthToken] removes the token key. *)
Definition storageAuthTokenRemove : M unit :=
  await AsyncStorage_removeToken ;;
  modify (with_AUTH_TOKEN_STORAGE None).

End Storage.

(** ** The session context *)

Module AuthContext.
Import Storage.

(** Modelled from the spec: [api.post('/sessions', ...)] of
    [@services/api]; a fulfilled request yields the response body. *)
Definition post_sessions (email password : string) : M SessionData :=
  await (api_post "/sessions" [("email", email); ("password", password)]) ;;
  ask sessions_data.

(** Installs the bearer header, then the user in memory. *)
Definition userAndTokenUpdate (userData : UserDTO) (token : string)
  : M unit :=
  setAuthorization (Bearer token) ;;
  setUser userData.

(** Writes the user key, then the token key, between the two settings of
    the loading flag; the [catch] block rethrows. *)
Definition storageUserAndTokenSave (userData : UserDTO) (token : string)
  : M unit :=
  try_finally
    (try_catch
       (setIsLoadingUserStorage true ;;
        storageUserSave userData ;;
        storageAuthTokenSave token)
       (fun error => throw error))
    (setIsLoadingUserStorage false).

(** The guard [data.user && data.token] is a truthiness test: a missing
    user, a missing token and an empty token all skip the body. *)
Definition signIn (email password : string) : M unit :=
  try_catch
    (data <- post_sessions email password ;;
     match data_user data, Js.truthy_string (data_token data) with
     | Some data_user, Some data_token =>
         storageUserAndTokenSave data_user data_token ;;
         userAndTokenUpdate data_user data_token
     | _, _ => ret tt
     end)
    (fun error => throw error).

(** The two removals are awaited one after the other inside one [try]. *)
Definition signOut : M unit :=
  try_finally
    (try_catch
       (setIsLoadingUserStorage true ;;
        setUser empty_user ;;
        storageUserRemove ;;
        storageAuthTokenRemove)
       (fun error => throw error))
    (setIsLoadingUserStorage false).

(** No loading flag here, and no token. *)
Definition updateUserProfile (userUpdated : UserDTO) : M unit :=
  try_catch
    (setUser userUpdated ;;
     storageUserSave userUpdated)
    (fun error => throw error).

(** Run once when the provider is mounted; the guard [token && userLogged]
    is a truthiness test as well. *)
Definition loadUserData : M unit :=
  try_finally
    (try_catch
       (setIsLoadingUserStorage true ;;
        userLogged <- storageUserGet ;;
        token <- storageAuthTokenGet ;;
        match Js.truthy_string token, userLogged with
        | Some token, Some userLogged =>
            userAndTokenUpdate userLogged token
        | _, _ => ret tt
        end)
       (fun error => throw error))
    (setIsLoadingUserStorage false).

(** The state of the provider when it is mounted: [useState({})],
    [useState(true)], no header yet, and whatever the device storage
    holds from earlier runs. *)
Definition mount (stored_user : option UserDTO) (stored_token : option string)
  : World :=
  mkWorld empty_user true None stored_user stored_token [].

(** A restart keeps the storage and nothing else. *)
Definition restart (w : World) : World :=
  mount (USER_STORAGE w) (AUTH_TOKEN_STORAGE w).

End AuthContext.

(** ** A fragment of the yup schema language

    The schemas of the screens are written with yup's combinators.  The
    fragment below follows yup's evaluation order: an object is cast field
    by field (transforms applied, [undefined] left alone), then every field
    is validated against the cast object; the nullability, optionality and
    [oneOf] checks of a field come first and the remaining tests only run
    when those pass. *)

Module Yup.
Import Js.

(** A plain object of form values. *)
Definition Obj := list (string * JsVal).

Fixpoint prop (k : string) (o : Obj) : JsVal :=
  match o with
  | [] => Undefined
  | (k', v) :: o' => if String.eqb k k' then v else prop k o'
  end.

(** A test returns the message of its error, if any. *)
Definition Test := JsVal -> Obj -> option string.

(** An allowed value of [oneOf]: a literal or [yup.ref(key)]. *)
Inductive Allowed :=
| lit (v : JsVal)
| ref (key : string).

Record Schema := mkSchema {
  spec_nullable : bool;
  notNull_message : string;
  spec_optional : bool;
  defined_message : string;
  whitelist : option (list Allowed * string);
  transforms : list (JsVal -> JsVal);
  tests : list Test
}.

(** [yup.string()]: [null] is refused, [undefined] is allowed. *)
Definition string_ : Schema :=
  mkSchema false "this cannot be null" true "this must be defined"
           None [] [].

Definition isAbsent (v : JsVal) : bool :=
  match v with
  | Str _ => false
  | _ => true
  end.

(** A test declared with [skipAbsent]. *)
Definition skipAbsent (p : string -> bool) (message : string) : Test :=
  fun v _ =>
    match v with
    | Str s => if p s then None else Some message
    | _ => None
    end.

Definition add_test (t : Test) (s : Schema) : Schema :=
  mkSchema (spec_nullable s) (notNull_message s) (spec_optional s)
           (defined_message s) (whitelist s) (transforms s)
           (tests s ++ [t]).

Definition nullable (s : Schema) : Schema :=
  mkSchema true (notNull_message s) (spec_optional s)
           (defined_message s) (whitelist s) (transforms s) (tests s).

(** [required(message)]: not [null], not [undefined], and for a string
    schema not of length 0. *)
Definition required (message : string) (s : Schema) : Schema :=
  add_test (skipAbsent (fun v => negb (String.length v =? 0)%nat) message)
    (mkSchema false message false message
              (whitelist s) (transforms s) (tests s)).

Definition min (n : nat) (message : string) : Schema -> Schema :=
  add_test (skipAbsent (fun v => (n <=? String.length v)%nat) message).

Definition transform (f : JsVal -> JsVal) (s : Schema) : Schema :=
  mkSchema (spec_nullable s) (notNull_message s) (spec_optional s)
           (defined_message s) (whitelist s) (transforms s ++ [f])
           (tests s).

Definition oneOf (enums : list Allowed) (message : string) (s : Schema)
  : Schema :=
  mkSchema (spec_nullable s) (notNull_message s) (spec_optional s)
           (defined_message s) (Some (enums, message)) (transforms s)
           (tests s).

(** [test({ name, test(value, ctx) { ... } })] *)
Definition test (f : Test) : Schema -> Schema := add_test f.

(** *** The e-mail pattern

    [/^[a-zA-Z0-9.!#$%&'*+\/=?^_`{|}~-]+@L(?:\.L)*$/] where a label [L]
    is [[a-zA-Z0-9](?:[a-zA-Z0-9-]{0,61}[a-zA-Z0-9])?]. *)

Definition in_range (lo hi : nat) (c : ascii) : bool :=
  (lo <=? nat_of_ascii c)%nat && (nat_of_ascii c <=? hi)%nat.

Definition is_alnum (c : ascii) : bool :=
  in_range 48 57 c || in_range 65 90 c || in_range 97 122 c.

Fixpoint mem_char (c : ascii) (s : string) : bool :=
  match s with
  | EmptyString => false
  | String d s' => Ascii.eqb c d || mem_char c s'
  end.

Definition is_local (c : ascii) : bool :=
  is_alnum c || mem_char c ".!#$%&'*+/=?^_`{|}~-".

Definition is_label_char (c : ascii) : bool :=
  is_alnum c || Ascii.eqb c "-".

Fixpoint all_chars (p : ascii -> bool) (s : string) : bool :=
  match s with
  | EmptyString => true
  | String c s' => p c && all_chars p s'
  end.

Fixpoint last_char (s : string) : option ascii :=
  match s with
  | EmptyString => None
  | String c EmptyString => Some c
  | String _ s' => last_char s'
  end.

Definition is_label (l : string) : bool :=
  match l with
  | EmptyString => false
  | String c _ =>
      is_alnum c
      && match last_char l with Some d => is_alnum d | None => false end
      && all_chars is_label_char l
      && (String.length l <=? 63)%nat
  end.

Definition rEmail (s : string) : bool :=
  match split "@" s with
  | [local; domain] =>
      negb (String.length local =? 0)%nat && all_chars is_local local
      && forallb is_label (split "." domain)
  | _ => false
  end.

(** [email(message)]: the pattern, with the empty string let through. *)
Definition email (message : string) : Schema -> Schema :=
  add_test
    (skipAbsent (fun v => (String.length v =? 0)%nat || rEmail v) message).

(** *** Casting and validation *)

Definition cast (s : Schema) (raw : JsVal) : JsVal :=
  match raw with
  | Undefined => Undefined
  | _ => fold_left (fun v f => f v) (transforms s) raw
  end.

Definition resolve (parent : Obj) (a : Allowed) : JsVal :=
  match a with
  | lit v => v
  | ref key => prop key parent
  end.

Definition check_nullable (s : Schema) (v : JsVal) : list string :=
  match v with
  | Null => if spec_nullable s then [] else [notNull_message s]
  | _ => []
  end.

Definition check_optionality (s : Schema) (v : JsVal) : list string :=
  match v with
  | Undefined => if spec_optional s then [] else [defined_message s]
  | _ => []
  end.

Definition check_whitelist (s : Schema) (parent : Obj) (v : JsVal)
  : list string :=
  match whitelist s with
  | Some (enums, message) =>
      if isAbsent v then []
      else if existsb (fun a => JsVal_eqb (resolve parent a) v) enums
           then [] else [message]
  | None => []
  end.

Definition run_tests (s : Schema) (parent : Obj) (v : JsVal) : list string :=
  flat_map (fun t => match t v parent with
                     | Some message => [message]
                     | None => []
                     end) (tests s).

Definition validate (s : Schema) (parent : Obj) (v : JsVal) : list string :=
  match check_nullable s v ++ check_optionality s v
        ++ check_whitelist s parent v with
  | [] => run_tests s parent v
  | initialErrors => initialErrors
  end.

(** A field of an object schema; [when] makes it depend on the sibling
    values. *)
Definition Field := Obj -> Schema.

Definition always (s : Schema) : Field := fun _ => s.

(** [schema.when(key, { is, then })] *)
Definition when (key : string) (is_ : JsVal -> bool)
           (then_ : Schema -> Schema) (s : Schema) : Field :=
  fun parent => if is_ (prop key parent) then then_ s else s.

Definition ObjectSchema := list (string * Field).

(** Casting an object: the fields in order, each resolved against the
    values cast so far; an [undefined] result is not assigned. *)
Definition cast_object (fields : ObjectSchema) (value : Obj) : Obj :=
  fold_left
    (fun intermediateValue '(key, field) =>
       match cast (field intermediateValue) (prop key value) with
       | Undefined => intermediateValue
       | fieldValue => intermediateValue ++ [(key, fieldValue)]
       end)
    fields [].

(** The errors of an object, as pairs of a path and a message. *)
Definition validate_object (fields : ObjectSchema) (value : Obj)
  : list (string * string) :=
  let parent := cast_object fields value in
  flat_map
    (fun '(key, field) =>
       map (fun message => (key, message))
           (validate (field parent) parent (prop key parent)))
    fields.

Definition isValid (fields : ObjectSchema) (value : Obj) : bool :=
  match validate_object fields value with
  | [] => true
  | _ => false
  end.

End Yup.

Notation "s |> f" := (f s) (at level 45, left associativity, only parsing).

(** [handleSubmit(handler)] of react-hook-form with [yupResolver(schema)]:
    the handler runs on the cast values when the schema has no error;
    otherwise the errors go to the form state and nothing else happens. *)
Definition handleSubmit {Data : Type} (schema : Yup.ObjectSchema)
           (data : Yup.Obj -> Data) (handler : Data -> M unit)
           (values : Yup.Obj) : M unit :=
  if Yup.isValid schema values
  then handler (data (Yup.cast_object schema values))
  else ret tt.

Definition string_of (v : Js.JsVal) : string :=
  match v with
  | Js.Str s => s
  | _ => EmptyString
  end.

(** ** The sign-up screen *)

Module SignUp.
Import Js Yup.

Definition signUpSchema : ObjectSchema :=
  [ ("name", always (string_ |> required "Informe o nome."));
    ("email",
     always (string_ |> required "Informe o e-mail."
                     |> email "E-mail inválido."));
    ("password",
     always (string_ |> required "Informe a senha"
                     |> min 6 "A senha deve ter pelo menos 6 dígitos."));
    ("passwordConfirm",
     always (string_ |> required "Confirme a senha."
                     |> oneOf [ref "password"; lit (Str "")]
                              "A confirmação da senha não confere.")) ].

Record FormDataProps := mkFormData {
  name : string;
  email : string;
  password : string;
  passwordConfirm : string
}.

(** The values of the four controlled inputs. *)
Definition values (name email password passwordConfirm : JsVal) : Obj :=
  [ ("name", name); ("email", email); ("password", password);
    ("passwordConfirm", passwordConfirm) ].

Definition data (o : Obj) : FormDataProps :=
  mkFormData (string_of (prop "name" o)) (string_of (prop "email" o))
             (string_of (prop "password" o))
             (string_of (prop "passwordConfirm" o)).

Section Screen.
(** [const { signIn } = useAuth()] *)
Variable signIn : string -> string -> M unit.

(** The [catch] block of [handleSignUp]. *)
Definition handleSignUp_catch (error : Error) : M unit :=
  emit (SetIsLoading false) ;;
  let title :=
    match error with
    | AppError message => message
    | Failure _ =>
        "Não foi possível criar a conta. Tente novamente mais tarde."
    end in
  emit (ToastShow title "red.500").

Definition handleSignUp (form : FormDataProps) : M unit :=
  try_catch
    (emit (SetIsLoading true) ;;
     await (api_post "/users"
              [("name", name form); ("email", email form);
               ("password", password form)]) ;;
     signIn (email form) (password form))
    handleSignUp_catch.

(** [onPress={handleSubmit(handleSignUp)}] *)
Definition onPress : Obj -> M unit :=
  handleSubmit signUpSchema data handleSignUp.
End Screen.

End SignUp.

(** ** The profile screen, fully wired *)

Module Profile.
Import Js Yup.

(** [v?.length] as a condition. *)
Definition has_length (v : JsVal) : bool := negb (opt_length v =? 0)%nat.

Definition profileSchema : ObjectSchema :=
  [ ("name", always (string_ |> required "Informe o nome."));
    ("email", always (string_ |> required "Informe o email."));
    ("oldPassword", always (string_ |> nullable));
    ("password",
     always (string_ |> nullable |> test (fun value parent =>
       let confirmPassword := prop "confirm_password" parent in
       if has_length confirmPassword && negb (has_length value)
       then Some "Informe a senha."
       else if has_length value && (opt_length value <? 6)%nat
       then Some "A senha deve ter pelo menos 6 dígitos."
       else None)));
    ("confirm_password",
     always (string_ |> nullable |> test (fun value parent =>
       let password := prop "password" parent in
       if has_length password && negb (has_length value)
       then Some "Informe a confirmação de senha."
       else if has_length password && negb (JsVal_eqb value password)
       then Some "A confirmação de senha não confere."
       else None))) ].

(** The values of the form: the two pre-filled inputs and the three
    password inputs. *)
Definition values (name email old_password password confirm_password
                   : JsVal) : Obj :=
  [ ("name", name); ("email", email); ("old_password", old_password);
    ("password", password); ("confirm_password", confirm_password) ].

(** [photoInfo.size && photoInfo.size / 1024 / 1024 > 5]; the divisions by
    a power of two are exact on the sizes of files, so the quotient is
    taken in the rationals. *)
Definition too_large (size : option Z) : bool :=
  match size with
  | Some n =>
      negb (n =? 0)%Z
      && negb (Qle_bool (inject_Z n / 1024 / 1024)%Q 5%Q)
  | None => false
  end.

Definition set_avatar (a : option string) (u : UserDTO) : UserDTO :=
  mkUser (DTO.id u) (DTO.name u) (DTO.email u) a.

Section Screen.
(** [const { user, updateUserProfile } = useAuth()]; [user] is read
    from the world. *)
Variable updateUserProfile : UserDTO -> M unit.

Definition handleUserPhotoSelect : M unit :=
  try_finally
    (try_catch
       (emit (SetPhotoIsLoading true) ;;
        await launchImageLibraryAsync ;;
        photoSelected <- ask photoSelected ;;
        if canceled photoSelected then ret tt
        else
          match assets photoSelected with
          | asset0 :: _ =>
              if String.eqb (uri asset0) "" then ret tt
              else
                await (getInfoAsync (uri asset0)) ;;
                size <- ask photoInfo_size ;;
                if too_large size
                then emit (ToastShow
                  "Essa imagem é muito grande. Escolha uma de até 5MB."
                  "red.500")
                else
                  let fileExtension := pop (split "." (uri asset0)) in
                  user_name <- get (fun w => DTO.name (user w)) ;;
                  let photoFile :=
                    mkPhotoFile
                      (toLowerCase
                         (template user_name ++ "." ++ fileExtension)%string)
                      (uri asset0)
                      (template (type asset0) ++ "/" ++ fileExtension)%string
                  in
                  await (api_patch "/users/avatar"
                           [("avatar", photoFile)]) ;;
                  avatar <- ask avatar_data ;;
                  (* userUpdated = user; userUpdated.avatar = ...:
                     the object held by the context is changed in place *)
                  modify (fun w => with_user (set_avatar avatar (user w)) w) ;;
                  userUpdated <- get user ;;
                  updateUserProfile userUpdated ;;
                  emit (ToastShow "Foto atualizada com sucesso!"
                                  "green.500")
          | [] => ret tt
          end)
       (fun error => emit ConsoleLog))
    (emit (SetPhotoIsLoading false)).
End Screen.

End Profile.

(** ** The profile screen before it was wired to the API *)

Module ProfileSkeleton.
Import Js Yup.

Definition profileSchema : ObjectSchema :=
  [ ("name", always (string_ |> required "Informe o nome."));
    ("email", always (string_ |> required "Informe o email."));
    ("oldPassword", always (string_ |> nullable));
    ("password",
     always (string_ |> min 6 "A senha deve ter pelo menos 6 dígitos."
                     |> nullable
                     |> transform or_null));
    ("confirmPassword",
     string_ |> nullable
             |> transform or_null
             |> oneOf [ref "password"; lit Null]
                      "A confirmação de senha não confere."
             |> when "password" truthy (fun schema =>
                  schema |> nullable
                         |> required "Informe a confirmação de senha."
                         |> transform or_null)) ].

Definition values (name email oldPassword password confirmPassword
                   : JsVal) : Obj :=
  [ ("name", name); ("email", email); ("oldPassword", oldPassword);
    ("password", password); ("confirmPassword", confirmPassword) ].

End ProfileSkeleton.

(** ** Observations on runs *)

(** The session state proper: the in-memory user, the two persisted keys
    and the default header. *)
Definition session (w : World)
  : UserDTO * option UserDTO * option string * option string :=
  (user w, USER_STORAGE w, AUTH_TOKEN_STORAGE w, Authorization w).

Definition with_trace (tr : list Event) (w : World) : World :=
  mkWorld (user w) (isLoadingUserStorage w) (Authorization w)
          (USER_STORAGE w) (AUTH_TOKEN_STORAGE w) tr.

(** The events of one run of [m], in order. *)
Definition events {A} (m : M A) (env : Env) (w : World) : list Event :=
  trace (snd (m env (with_trace [] w))).



(** The operations the context exposes, and the states they reach. *)
Inductive Op :=
| OpSignIn (email password : string)
| OpSignOut
| OpUpdateUserProfile (userUpdated : UserDTO)
| OpLoadUserData.

Definition perform (op : Op) : M unit :=
  match op with
  | OpSignIn email password => AuthContext.signIn email password
  | OpSignOut => AuthContext.signOut
  | OpUpdateUserProfile userUpdated => AuthContext.updateUserProfile userUpdated
  | OpLoadUserData => AuthContext.loadUserData
  end.

(** States reachable from a mounted provider by operations that the guard
    lets through, each run in an environment of its own. *)
Inductive reachable (guard : Op -> World -> Prop) : World -> Prop :=
| reachable_mount stored_user stored_token :
    reachable guard (AuthContext.mount stored_user stored_token)
| reachable_step w env op :
    reachable guard w -> guard op w ->
    reachable guard (snd (perform op env w)).

Definition at_any_time : Op -> World -> Prop := fun _ _ => True.




(** Concrete data for the examples. *)
Definition ana : UserDTO :=
  mkUser (Some "1") (Some "Ana") (Some "ana@x.com") None.

(** Every awaited call is fulfilled; the session request answers with
    [ana] and the token ["tok"]. *)
Definition calm : Env :=
  mkEnv (fun _ => None) (mkSessionData (Some ana) (Some "tok"))
        (Some "ana.png")
        (mkPicked false [mkAsset "file:///photos/me.JPG" (Some "image")])
        (Some 6000000%Z).

(** As [calm], but the removal of the user key is rejected. *)
Definition removal_fails : Env :=
  mkEnv (fun c => match c with
                  | AsyncStorage_removeUser => Some (Failure "storage")
                  | _ => None
                  end)
        (sessions_data calm) (avatar_data calm) (photoSelected calm)
        (photoInfo_size calm).

(** As [calm], but the write of the token key is rejected. *)
Definition token_write_fails : Env :=
  mkEnv (fun c => match c with
                  | AsyncStorage_setToken _ => Some (Failure "storage")
                  | _ => None
                  end)
        (sessions_data calm) (avatar_data calm) (photoSelected calm)
        (photoInfo_size calm).

(** As [calm], but the session response carries no token. *)
Definition no_token : Env :=
  mkEnv (rejects calm) (mkSessionData (Some ana) None)
        (avatar_data calm) (photoSelected calm) (photoInfo_size calm).

(** A signed-in state: [ana] with her token everywhere. *)
Definition signed_in : World :=
  mkWorld ana false (Some (Bearer "tok")) (Some ana) (Some "tok") [].

(** ** The properties asked of the session context *)

(** What the claim about [signOut] asks of a run. *)
Definition signOut_clears_all (env : Env) (w : World) : Prop :=
  let w' := snd (AuthContext.signOut env w) in
  USER_STORAGE w' = None /\ AUTH_TOKEN_STORAGE w' = None
  /\ user w' = empty_user /\ isLoadingUserStorage w' = false.

(** What the claim about [loadUserData] asks of a persisted state. *)
Definition loadUserData_restores (stored_user : option UserDTO)
           (stored_token : option string) : Prop :=
  let w' := snd (AuthContext.loadUserData calm
                   (AuthContext.mount stored_user stored_token)) in
  match stored_user, stored_token with
  | Some u, Some t => user w' = u /\ Authorization w' = Some (Bearer t)
  | _, _ => user w' = empty_user /\ Authorization w' = None
  end.

(** What the claim about a failing [signIn] asks of a run: if it throws,
    the session state is as before. *)
Definition signIn_failure_is_atomic (email password : string)
           (env : Env) (w : World) : Prop :=
  forall e, fst (AuthContext.signIn email password env w) = Thrown e ->
            session (snd (AuthContext.signIn email password env w))
            = session w.




(** ** Validation in closed form *)

(** Whether a field passes its schema. *)
Definition field_ok (s : Yup.Schema) (parent : Yup.Obj) (v : Js.JsVal) : bool :=
  match Yup.validate s parent v with
  | [] => true
  | _ => false
  end.


(** What both profile schemas accept: a name and an e-mail, and either no
    new password and no confirmation, or a new password of at least six
    characters with an equal confirmation. *)
Definition profile_ok (name email password confirm : Js.JsVal) : bool :=
  Js.truthy name && Js.truthy email
  && (if Js.truthy password
      then (6 <=? Js.opt_length password)%nat && Js.JsVal_eqb confirm password
      else negb (Js.truthy confirm)).

(** The form of the example: Ana signs up. *)
Definition ana_values : Yup.Obj :=
  SignUp.values (Js.Str "Ana") (Js.Str "ana@x.com") (Js.Str "123456")
                (Js.Str "123456").

(** ** Further environments for the examples *)

(** As [calm], but the write of the user key is rejected. *)
Definition user_write_fails : Env :=
  mkEnv (fun c => match c with
                  | AsyncStorage_setUser _ => Some (Failure "storage")
                  | _ => None
                  end)
        (sessions_data calm) (avatar_data calm) (photoSelected calm)
        (photoInfo_size calm).

(** As [calm], but the read of the token key is rejected. *)
Definition token_read_fails : Env :=
  mkEnv (fun c => match c with
                  | AsyncStorage_getToken => Some (Failure "storage")
                  | _ => None
                  end)
        (sessions_data calm) (avatar_data calm) (photoSelected calm)
        (photoInfo_size calm).

(** ** Further observations on the screens *)

(** The title of the toast that reports a failed sign-up. *)
Definition signUp_error_title (error : Error) : string :=
  match error with
  | AppError message => message
  | Failure _ => "Não foi possível criar a conta. Tente novamente mais tarde."
  end.

(** The body of the registration request for a form. *)
Definition users_body (form : SignUp.FormDataProps) : list (string * string) :=
  [("name", SignUp.name form); ("email", SignUp.email form);
   ("password", SignUp.password form)].

(** The body of the session request for a form. *)
Definition sessions_body (form : SignUp.FormDataProps)
  : list (string * string) :=
  [("email", SignUp.email form); ("password", SignUp.password form)].

(** A field of the user record as a form value. *)
Definition value_of (field : option string) : Js.JsVal :=
  match field with
  | Some s => Js.Str s
  | None => Js.Undefined
  end.

(** [defaultValues] of the wired profile form: the name and the e-mail of
    the user in the context, and [null] for the three password inputs. *)
Definition profile_defaultValues (u : UserDTO) : Yup.Obj :=
  Profile.values (value_of (DTO.name u)) (value_of (DTO.email u))
                 Js.Null Js.Null Js.Null.


(** [segments.join(sep)] *)
Fixpoint join (sep : ascii) (segments : list string) : string :=
  match segments with
  | [] => EmptyString
  | [segment] => segment
  | segment :: rest => (segment ++ String sep (join sep rest))%string
  end.

(** A string without the character [c]. *)
Definition without (c : ascii) (s : string) : bool :=
  Yup.all_chars (fun d => negb (Ascii.eqb d c)) s.

(** ** The profile screen before it was wired: picking a photo

    In the earlier profile screen the picked photo only replaces the
    [userPhoto] state of the screen.  That state is passed in and the
    handler returns what it is after the run. *)

Module ProfileSkeletonScreen.

(** The guard on the size is the one of the wired screen, word for word. *)
Definition handleUserPhotoSelect (userPhoto : string) : M string :=
  try_finally
    (try_catch
       (emit (SetPhotoIsLoading true) ;;
        await launchImageLibraryAsync ;;
        photoSelected <- ask photoSelected ;;
        if canceled photoSelected then ret userPhoto
        else
          match assets photoSelected with
          | asset0 :: _ =>
              if String.eqb (uri asset0) "" then ret userPhoto
              else
                await (getInfoAsync (uri asset0)) ;;
                size <- ask photoInfo_size ;;
                if Profile.too_large size
                then
                  emit (ToastShow
                    "Essa imagem é muito grande. Escolha uma de até 5MB."
                    "red.500") ;;
                  ret userPhoto
                else
                  (* setUserPhoto(photoSelected.assets[0].uri) *)
                  ret (uri asset0)
          | [] => ret userPhoto
          end)
       (fun error => emit ConsoleLog ;; ret userPhoto))
    (emit (SetPhotoIsLoading false)).

End ProfileSkeletonScreen.

(** ** The sign-up screen before it had a schema

    The earlier sign-up screen validates with the [rules] of its
    controllers: the name is required, the e-mail is required and must
    match a pattern, and the two password inputs have no rule. *)

Module SignUpSkeleton.
Import Js.

Definition is_letter (c : ascii) : bool :=
  Yup.in_range 65 90 c || Yup.in_range 97 122 c.

Definition is_local (c : ascii) : bool :=
  Yup.is_alnum c || Yup.mem_char c "._%+-".

Definition is_domain (c : ascii) : bool :=
  Yup.is_alnum c || Yup.mem_char c ".-".

(** [/^[A-Z0-9._%+-]+@[A-Z0-9.-]+\.[A-Z]{2,}$/i].  Neither class contains
    the at sign, so the string has exactly one; the letters after the last
    dot of what follows it are the final group, and what comes before that
    dot is the middle group. *)
Definition pattern (s : string) : bool :=
  match split "@" s with
  | [local; rest] =>
      negb (String.length local =? 0)%nat && Yup.all_chars is_local local
      && match rev (split "." rest) with
         | tld :: ((_ :: _) as before) =>
             let domain := join "." (rev before) in
             negb (String.length domain =? 0)%nat
             && Yup.all_chars is_domain domain
             && Yup.all_chars is_letter tld
             && (2 <=? String.length tld)%nat
         | _ => false
         end
  | _ => false
  end.

(** The [rules] of a controller. *)
Record Rules := mkRules {
  required : option string;
  rule_pattern : option ((string -> bool) * string)
}.

(** The validation of one field by react-hook-form: a required field must
    not be empty, and a pattern is tried on a non-empty string. *)
Definition validateField (rules : Rules) (v : JsVal) : option string :=
  match required rules, truthy v with
  | Some message, false => Some message
  | _, _ =>
      match rule_pattern rules, v with
      | Some (matches, message), Str s =>
          if (String.length s =? 0)%nat || matches s then None
          else Some message
      | _, _ => None
      end
  end.

Definition rules : list (string * Rules) :=
  [ ("name", mkRules (Some "Informe o nome") None);
    ("email", mkRules (Some "Informe o e-mail.")
                      (Some (pattern, "E-mail inválido")));
    ("password", mkRules None None);
    ("passwordConfirm", mkRules None None) ].

Definition errors (values : Yup.Obj) : list (string * string) :=
  flat_map (fun '(key, r) =>
              match validateField r (Yup.prop key values) with
              | Some message => [(key, message)]
              | None => []
              end) rules.

Definition isValid (values : Yup.Obj) : bool :=
  match errors values with
  | [] => true
  | _ => false
  end.

(** [handleSignUp] only logs the form. *)
Definition handleSignUp (values : Yup.Obj) : M unit := emit ConsoleLog.

(** [onPress={handleSubmit(handleSignUp)}] *)
Definition onPress (values : Yup.Obj) : M unit :=
  if isValid values then handleSignUp values else ret tt.

End SignUpSkeleton.

(** ** The profile screen: saving the form

    [handleProfileUpdate] of the wired profile screen.  The flag
    [isUpdating] and the dirty state of the form belong to the screen; they
    are passed in and the handler returns what they are after the run.  The
    outcome of [api.put('/users', data)] is given with the call. *)

Module ProfileUpdate.

Record ScreenState := mkScreenState {
  isUpdating : bool;
  isDirty : bool
}.

Definition field_of (v : Js.JsVal) : option string :=
  match v with
  | Js.Str s => Some s
  | _ => None
  end.

Definition set_name (n : option string) (u : UserDTO) : UserDTO :=
  mkUser (DTO.id u) n (DTO.email u) (DTO.avatar u).

(** The title of the red toast. *)
Definition error_title (error : Error) : string :=
  match error with
  | AppError message => message
  | Failure _ =>
      "Não foi possível alterar os dados. Tente novamente mais tarde."
  end.

Section Screen.
(** [const { user, updateUserProfile } = useAuth()] *)
Variable updateUserProfile : UserDTO -> M unit.
(** Modelled from the spec: [api.put('/users', data)] of [@services/api];
    the request is rejected with the given error, or fulfilled. *)
Variable put_users : option Error.

Definition handleProfileUpdate (data : Yup.Obj) (screen : ScreenState)
  : M ScreenState :=
  (* setIsUpdating(true) *)
  let updating := mkScreenState true (isDirty screen) in
  afterwards <-
    try_catch
      (match put_users with
       | Some error => throw error
       | None => ret tt
       end ;;
       (* userUpdated = user; userUpdated.name = data.name: the object
          held by the context is changed in place *)
       modify (fun w =>
                 with_user (set_name (field_of (Yup.prop "name" data))
                                     (user w)) w) ;;
       userUpdated <- get user ;;
       updateUserProfile userUpdated ;;
       (* reset() *)
       emit (ToastShow "Perfil atualizado com sucesso!" "green.500") ;;
       ret (mkScreenState true false))
      (fun error =>
         emit (ToastShow (error_title error) "red.500") ;;
         ret updating) ;;
  (* finally: setIsUpdating(false) *)
  ret (mkScreenState false (isDirty afterwards)).
End Screen.

End ProfileUpdate.

(** ** Proof automation *)

Ltac async_unfold :=
  cbv beta iota zeta delta
    [AuthContext.signIn AuthContext.signOut AuthContext.updateUserProfile
     AuthContext.loadUserData AuthContext.userAndTokenUpdate
     AuthContext.storageUserAndTokenSave AuthContext.post_sessions
     Storage.storageUserSave Storage.storageUserGet Storage.storageUserRemove
     Storage.storageAuthTokenSave Storage.storageAuthTokenGet
     Storage.storageAuthTokenRemove perform
     setUser setIsLoadingUserStorage setAuthorization await emit modify ask get
     try_catch try_finally bind ret throw events session].

(** Case analysis on the next awaited call that is still undecided. *)
Ltac next_call :=
  match goal with
  | H : rejects ?env ?c = _ |- context [rejects ?env ?c] => rewrite H
  | |- context [rejects ?env ?c] => destruct (rejects env c) eqn:?
  end; cbn.

Ltac async := async_unfold; cbn; repeat next_call.

(** Case analysis on the string tests left in a validation goal. *)
Ltac atoms :=
  repeat match goal with
         | |- context [Ascii.eqb ?a ?b] => destruct (Ascii.eqb a b) eqn:?; cbn
         | |- context [String.eqb ?a ?b] => destruct (String.eqb a b) eqn:?; cbn
         | |- context [Nat.leb ?a ?b] => destruct (Nat.leb a b) eqn:?; cbn
         | |- context [Nat.ltb ?a ?b] => destruct (Nat.ltb a b) eqn:?; cbn
         | |- context [Yup.rEmail ?a] => destruct (Yup.rEmail a) eqn:?; cbn
         end.

Ltac decide_atoms :=
  atoms; try reflexivity; exfalso;
  repeat match goal with
         | H : _ = true |- _ =>
             apply Nat.leb_le in H || apply Nat.ltb_lt in H
             || apply String.eqb_eq in H || apply Ascii.eqb_eq in H
         | H : _ = false |- _ =>
             apply Nat.leb_gt in H || apply Nat.ltb_ge in H
             || apply String.eqb_neq in H || apply Ascii.eqb_neq in H
         end;
  subst; (lia || congruence).

(** ** The session context: sign-out *)

(** When the removal of the user key throws, the removal of the token key
    is never attempted: both persisted keys survive the sign-out. *)
Lemma signOut_keeps_keys_when_removal_throws :
  AuthContext.signOut removal_fails signed_in
  = (Thrown (Failure "storage"),
     mkWorld empty_user false (Some (Bearer "tok")) (Some ana) (Some "tok")
             [SetIsLoadingUserStorage true; SetUser empty_user;
              Await AsyncStorage_removeUser; SetIsLoadingUserStorage false])
  /\ ~ signOut_clears_all removal_fails signed_in.
Proof.
  split; [reflexivity|].
  unfold signOut_clears_all. cbn. intros (_ & H & _). discriminate H.
Qed.

(** C2 (amended).  Every run of [signOut] ends with the in-memory user equal
    to the empty sentinel and the loading flag [false].  When both removals
    are fulfilled it returns and both persisted keys are absent; when the
    removal of the user key throws, the error propagates and both keys are
    as before; when only the removal of the token key throws, the error
    propagates, the user key is absent and the token key is as before. *)
Theorem signOut_final_state (env : Env) (w : World) :
  let r := fst (AuthContext.signOut env w) in
  let w' := snd (AuthContext.signOut env w) in
  user w' = empty_user /\ isLoadingUserStorage w' = false
  /\ Authorization w' = Authorization w
  /\ match rejects env AsyncStorage_removeUser,
           rejects env AsyncStorage_removeToken with
     | None, None =>
         r = Returned tt
         /\ USER_STORAGE w' = None /\ AUTH_TOKEN_STORAGE w' = None
     | Some e, _ =>
         r = Thrown e
         /\ USER_STORAGE w' = USER_STORAGE w
         /\ AUTH_TOKEN_STORAGE w' = AUTH_TOKEN_STORAGE w
     | None, Some e =>
         r = Thrown e
         /\ USER_STORAGE w' = None
         /\ AUTH_TOKEN_STORAGE w' = AUTH_TOKEN_STORAGE w
     end.
Proof.
  async; repeat split; reflexivity.
Qed.

(** ** The session context: restoring at mount *)

(** A token key that holds the empty string is present but falsy: the
    guard [token && userLogged] skips the restore. *)
Lemma loadUserData_skips_empty_token :
  AuthContext.loadUserData calm (AuthContext.mount (Some ana) (Some ""))
  = (Returned tt,
     mkWorld empty_user false None (Some ana) (Some "")
             [SetIsLoadingUserStorage true; Await AsyncStorage_getUser;
              Await AsyncStorage_getToken; SetIsLoadingUserStorage false])
  /\ ~ loadUserData_restores (Some ana) (Some "").
Proof.
  split; [reflexivity|].
  unfold loadUserData_restores. cbn. intros [H _]. discriminate H.
Qed.

(** C3 (amended).  After a successful [loadUserData] on a mounted provider:
    if both keys are present and the persisted token is not the empty
    string, the in-memory user is the persisted record and the header is
    the bearer of the persisted token; if either key is absent, or the
    token is the empty string, the in-memory user remains the empty
    sentinel and no header is set.  Storage is left as it was and the
    loading flag ends [false]. *)
Theorem loadUserData_restores_persisted (env : Env)
        (stored_user : option UserDTO) (stored_token : option string) :
  rejects env AsyncStorage_getUser = None ->
  rejects env AsyncStorage_getToken = None ->
  let r := fst (AuthContext.loadUserData env
                  (AuthContext.mount stored_user stored_token)) in
  let w' := snd (AuthContext.loadUserData env
                   (AuthContext.mount stored_user stored_token)) in
  r = Returned tt /\ isLoadingUserStorage w' = false
  /\ USER_STORAGE w' = stored_user /\ AUTH_TOKEN_STORAGE w' = stored_token
  /\ match stored_user, stored_token with
     | Some u, Some t =>
         if String.eqb t "" then user w' = empty_user /\ Authorization w' = None
         else user w' = u /\ Authorization w' = Some (Bearer t)
     | _, _ => user w' = empty_user /\ Authorization w' = None
     end.
Proof.
  intros Hu Ht. async.
  destruct stored_token as [t|]; cbn; [destruct (String.eqb t "")|];
    destruct stored_user as [u|]; cbn; repeat split; reflexivity.
Qed.

Lemma loadUserData_restores_persisted_witness :
  let w' := snd (AuthContext.loadUserData calm
                   (AuthContext.mount (Some ana) (Some "tok"))) in
  user w' = ana /\ Authorization w' = Some "Bearer tok".
Proof.
  exact (proj2 (proj2 (proj2 (proj2
    (loadUserData_restores_persisted calm (Some ana) (Some "tok")
       eq_refl eq_refl))))).
Defined.

(** Whatever the environment and the state, [loadUserData] changes neither
    persisted key, and it changes the in-memory user and the header only
    when it restores them from a user record and a non-empty token. *)
Lemma loadUserData_session (env : Env) (w : World) :
  let w' := snd (AuthContext.loadUserData env w) in
  USER_STORAGE w' = USER_STORAGE w
  /\ AUTH_TOKEN_STORAGE w' = AUTH_TOKEN_STORAGE w
  /\ isLoadingUserStorage w' = false
  /\ ((user w' = user w /\ Authorization w' = Authorization w)
      \/ exists u t, USER_STORAGE w = Some u /\ AUTH_TOKEN_STORAGE w = Some t
                     /\ t <> EmptyString
                     /\ user w' = u /\ Authorization w' = Some (Bearer t)).
Proof.
  async; try (repeat split; auto; fail).
  destruct (AUTH_TOKEN_STORAGE w) as [t|] eqn:Et; cbn;
    try (repeat split; auto; fail).
  destruct (String.eqb_spec t ""); cbn; try (repeat split; auto; fail).
  destruct (USER_STORAGE w) as [u|] eqn:Eu; cbn;
    try (repeat split; auto; fail).
  repeat split; auto. right. exists u, t. repeat split; auto.
Qed.

(** ** The session context: profile update *)




(** ** The session context: sign-in *)

Lemma truthy_string_Some (v : option string) (t : string) :
  Js.truthy_string v = Some t -> v = Some t /\ t <> EmptyString.
Proof.
  destruct v as [s|]; cbn; [|discriminate].
  destruct (String.eqb_spec s ""); [discriminate|].
  intros H. injection H as <-. split; [reflexivity|assumption].
Qed.

(** When the write of the token key throws, the user key has already been
    written: the error propagates, but the persisted user record changed. *)
Lemma signIn_token_write_failure_keeps_user_key :
  AuthContext.signIn "ana@x.com" "123456" token_write_fails
                     (AuthContext.mount None None)
  = (Thrown (Failure "storage"),
     mkWorld empty_user false None (Some ana) None
             [Await (api_post "/sessions"
                       [("email", "ana@x.com"); ("password", "123456")]);
              SetIsLoadingUserStorage true;
              Await (AsyncStorage_setUser ana);
              Await (AsyncStorage_setToken "tok");
              SetIsLoadingUserStorage false])
  /\ ~ signIn_failure_is_atomic "ana@x.com" "123456" token_write_fails
                                (AuthContext.mount None None).
Proof.
  split; [reflexivity|].
  intros H. specialize (H (Failure "storage") eq_refl). discriminate H.
Qed.

(** C5 (amended).  The runs of [signIn], case by case.  If the network
    request throws, or the write of the user key throws, the error
    propagates and the in-memory user, both persisted keys and the header
    are unchanged.  If the write of the token key throws, the error
    propagates and the in-memory user, the token key and the header are
    unchanged, while the user key already holds the returned record.  If
    nothing throws and the response is complete, the record and the token
    are persisted and installed. *)
Theorem signIn_run (email password : string) (env : Env) (w : World) :
  let r := fst (AuthContext.signIn email password env w) in
  let w' := snd (AuthContext.signIn email password env w) in
  match rejects env (api_post "/sessions"
                       [("email", email); ("password", password)]) with
  | Some e =>
      r = Thrown e /\ session w' = session w
      /\ isLoadingUserStorage w' = isLoadingUserStorage w
  | None =>
      match data_user (sessions_data env),
            Js.truthy_string (data_token (sessions_data env)) with
      | Some u, Some t =>
          isLoadingUserStorage w' = false
          /\ match rejects env (AsyncStorage_setUser u),
                   rejects env (AsyncStorage_setToken t) with
             | Some e, _ => r = Thrown e /\ session w' = session w
             | None, Some e =>
                 r = Thrown e
                 /\ user w' = user w /\ Authorization w' = Authorization w
                 /\ AUTH_TOKEN_STORAGE w' = AUTH_TOKEN_STORAGE w
                 /\ USER_STORAGE w' = Some u
             | None, None =>
                 r = Returned tt
                 /\ session w' = (u, Some u, Some t, Some (Bearer t))
             end
      | _, _ =>
          r = Returned tt /\ session w' = session w
          /\ isLoadingUserStorage w' = isLoadingUserStorage w
      end
  end.
Proof.
  async; try (repeat split; reflexivity).
  destruct (data_user (sessions_data env)) as [u|]; cbn;
    [|repeat split; reflexivity].
  destruct (Js.truthy_string (data_token (sessions_data env))) as [t|]; cbn;
    [|repeat split; reflexivity].
  repeat next_call; repeat split; reflexivity.
Qed.

(** C10.  When the request is fulfilled but the response lacks the user
    field or the token field, [signIn] returns without an error and leaves
    the in-memory user, both persisted keys and the header as they were;
    the request is all that happened. *)
Theorem signIn_incomplete_response
        (email password : string) (env : Env) (w : World) :
  rejects env (api_post "/sessions"
                 [("email", email); ("password", password)]) = None ->
  data_user (sessions_data env) = None
  \/ data_token (sessions_data env) = None ->
  fst (AuthContext.signIn email password env w) = Returned tt
  /\ session (snd (AuthContext.signIn email password env w)) = session w
  /\ isLoadingUserStorage (snd (AuthContext.signIn email password env w))
     = isLoadingUserStorage w
  /\ events (AuthContext.signIn email password) env w
     = [Await (api_post "/sessions"
                 [("email", email); ("password", password)])].
Proof.
  intros Hpost [Hu|Ht]; async.
  - rewrite Hu. repeat split; reflexivity.
  - rewrite Ht. cbn.
    destruct (data_user (sessions_data env)); repeat split; reflexivity.
Qed.

Lemma signIn_incomplete_response_witness :
  fst (AuthContext.signIn "ana@x.com" "123456" no_token signed_in)
  = Returned tt
  /\ session (snd (AuthContext.signIn "ana@x.com" "123456" no_token signed_in))
     = session signed_in.
Proof.
  pose proof (signIn_incomplete_response "ana@x.com" "123456" no_token
                signed_in eq_refl (or_intror eq_refl)) as H.
  exact (conj (proj1 H) (proj1 (proj2 H))).
Defined.

(** A token that is the empty string counts as missing as well. *)
Lemma signIn_empty_token (email password : string) (env : Env) (w : World) :
  rejects env (api_post "/sessions"
                 [("email", email); ("password", password)]) = None ->
  data_token (sessions_data env) = Some EmptyString ->
  fst (AuthContext.signIn email password env w) = Returned tt
  /\ session (snd (AuthContext.signIn email password env w)) = session w.
Proof.
  intros Hpost Ht. async. rewrite Ht. cbn.
  destruct (data_user (sessions_data env)); split; reflexivity.
Qed.

(** ** The loading flag *)



(** ** The session invariant *)


(** The three ways a run of [signIn] can leave the session state: as it
    was; with only the user key rewritten; or with a record and a non-empty
    token persisted and installed. *)
Lemma signIn_session (email password : string) (env : Env) (w : World) :
  let w' := snd (AuthContext.signIn email password env w) in
  session w' = session w
  \/ (user w' = user w /\ AUTH_TOKEN_STORAGE w' = AUTH_TOKEN_STORAGE w
      /\ Authorization w' = Authorization w)
  \/ (exists u t, t <> EmptyString
                  /\ session w' = (u, Some u, Some t, Some (Bearer t))).
Proof.
  async; auto.
  destruct (data_user (sessions_data env)) as [u|]; cbn; auto.
  destruct (Js.truthy_string (data_token (sessions_data env)))
    as [t|] eqn:Et; cbn; auto.
  apply truthy_string_Some in Et. destruct Et as [_ Hne].
  repeat next_call; auto.
  right. right. exists u, t. split; [assumption | reflexivity].
Qed.








(** ** Validation schemas *)

Local Arguments Yup.rEmail : simpl never.
Local Arguments Nat.leb : simpl never.
Local Arguments Nat.ltb : simpl never.

(** An object is valid exactly when each of its fields passes its schema,
    resolved against the cast object. *)
Lemma isValid_forallb (fields : Yup.ObjectSchema) (value : Yup.Obj) :
  Yup.isValid fields value
  = forallb (fun '(key, field) =>
               field_ok (field (Yup.cast_object fields value))
                        (Yup.cast_object fields value)
                        (Yup.prop key (Yup.cast_object fields value)))
            fields.
Proof.
  unfold Yup.isValid, Yup.validate_object.
  generalize (Yup.cast_object fields value) as parent. intros parent.
  induction fields as [|[key field] fields IH]; cbn; [reflexivity|].
  unfold field_ok at 1.
  destruct (Yup.validate (field parent) parent (Yup.prop key parent)); cbn;
    [exact IH | reflexivity].
Qed.

Lemma JsVal_eqb_eq (a b : Js.JsVal) : Js.JsVal_eqb a b = true <-> a = b.
Proof.
  destruct a as [| |s], b as [| |t]; cbn; split; intros H;
    try reflexivity; try discriminate.
  - apply String.eqb_eq in H. now subst.
  - injection H as ->. apply String.eqb_refl.
Qed.

Lemma truthy_opt_length (v : Js.JsVal) :
  Js.truthy v = false -> Js.opt_length v = 0.
Proof.
  destruct v as [| |[|a s]]; cbn; intros H; try reflexivity. discriminate H.
Qed.


(** The schema of the fully wired profile screen, in closed form. *)
Lemma profileSchema_spec (n e o p c : Js.JsVal) :
  Yup.isValid Profile.profileSchema (Profile.values n e o p c)
  = profile_ok n e p c.
Proof.
  rewrite isValid_forallb.
  destruct n as [| |[|? ?]], e as [| |[|? ?]], o as [| |?],
           p as [| |[|? ?]], c as [| |[|? ?]];
    cbn; try reflexivity;
    unfold field_ok, Yup.validate, Yup.run_tests, Yup.always, profile_ok;
    cbn; try reflexivity; decide_atoms.
Qed.

(** The schema of the earlier profile screen accepts the same forms. *)
Lemma profileSkeletonSchema_spec (n e o p c : Js.JsVal) :
  Yup.isValid ProfileSkeleton.profileSchema
              (ProfileSkeleton.values n e o p c)
  = profile_ok n e p c.
Proof.
  rewrite isValid_forallb.
  destruct n as [| |[|? ?]], e as [| |[|? ?]], o as [| |?],
           p as [| |[|? ?]], c as [| |[|? ?]];
    cbn; try reflexivity;
    unfold field_ok, Yup.validate, Yup.run_tests, Yup.always, Yup.when,
           profile_ok;
    cbn; try reflexivity; decide_atoms.
Qed.





(** With the session context behind it, Ana's submission registers her,
    signs her in and installs her session. *)
Lemma signUp_ana_signs_in :
  SignUp.onPress AuthContext.signIn ana_values calm
                 (AuthContext.mount None None)
  = (Returned tt,
     mkWorld ana false (Some "Bearer tok") (Some ana) (Some "tok")
       [SetIsLoading true;
        Await (api_post "/users"
                 [("name", "Ana"); ("email", "ana@x.com");
                  ("password", "123456")]);
        Await (api_post "/sessions"
                 [("email", "ana@x.com"); ("password", "123456")]);
        SetIsLoadingUserStorage true;
        Await (AsyncStorage_setUser ana);
        Await (AsyncStorage_setToken "tok");
        SetIsLoadingUserStorage false;
        SetAuthorization "Bearer tok";
        SetUser ana]).
Proof. reflexivity. Qed.

(** When the registration request is rejected, [signIn] is not called:
    the run does not depend on it. *)
Lemma signUp_registration_failure (signIn : string -> string -> M unit)
      (env : Env) (w : World) (e : Error) :
  rejects env (api_post "/users"
                 [("name", "Ana"); ("email", "ana@x.com");
                  ("password", "123456")]) = Some e ->
  SignUp.onPress signIn ana_values env w
  = SignUp.handleSignUp_catch e env
      (with_trace
         (trace w ++
          [SetIsLoading true;
           Await (api_post "/users"
                    [("name", "Ana"); ("email", "ana@x.com");
                     ("password", "123456")])]) w).
Proof.
  intros Hpost.
  unfold SignUp.onPress, handleSubmit.
  replace (Yup.isValid SignUp.signUpSchema ana_values) with true
    by reflexivity.
  replace (SignUp.data (Yup.cast_object SignUp.signUpSchema ana_values))
    with (SignUp.mkFormData "Ana" "ana@x.com" "123456" "123456")
    by reflexivity.
  unfold SignUp.handleSignUp. cbn [SignUp.name SignUp.email SignUp.password].
  unfold SignUp.handleSignUp_catch, try_catch, bind, await, emit, ask,
         with_trace.
  cbn. rewrite Hpost. cbn. rewrite <- !app_assoc. reflexivity.
Qed.

(** C8.  Both profile schemas, on a form whose name and e-mail are filled
    in, accept a new password and a confirmation that are both left empty;
    both refuse a non-empty password with an empty confirmation; and both
    refuse a confirmation that differs from the password when either of
    the two is filled in. *)
Theorem profile_password_validation (n e o p c : Js.JsVal) :
  let wired :=
    Yup.isValid Profile.profileSchema (Profile.values n e o p c) in
  let skeleton :=
    Yup.isValid ProfileSkeleton.profileSchema
                (ProfileSkeleton.values n e o p c) in
  (Js.truthy n = true -> Js.truthy e = true ->
   Js.truthy p = false -> Js.truthy c = false ->
   wired = true /\ skeleton = true)
  /\ (Js.truthy p = true -> Js.truthy c = false ->
      wired = false /\ skeleton = false)
  /\ (Js.truthy p = true \/ Js.truthy c = true -> c <> p ->
      wired = false /\ skeleton = false).
Proof.
  cbv zeta. rewrite profileSchema_spec, profileSkeletonSchema_spec.
  unfold profile_ok. repeat apply conj.
  - intros -> -> -> ->. split; reflexivity.
  - intros Hp Hc. rewrite Hp.
    assert (E : Js.JsVal_eqb c p = false).
    { destruct (Js.JsVal_eqb c p) eqn:E; [|reflexivity].
      apply JsVal_eqb_eq in E. subst c. congruence. }
    rewrite E, !andb_false_r. split; reflexivity.
  - intros Hpc Hne.
    assert (E : Js.JsVal_eqb c p = false).
    { destruct (Js.JsVal_eqb c p) eqn:E; [|reflexivity].
      apply JsVal_eqb_eq in E. contradiction. }
    rewrite E. destruct (Js.truthy p) eqn:Hp.
    + rewrite !andb_false_r. split; reflexivity.
    + destruct Hpc as [Hpc | Hpc]; [discriminate Hpc|].
      rewrite Hpc. cbn. rewrite !andb_false_r. split; reflexivity.
Qed.

Lemma profile_password_validation_witness :
  (Yup.isValid Profile.profileSchema
     (Profile.values (Js.Str "Ana") (Js.Str "ana@x.com") Js.Null Js.Null
                     Js.Null) = true
   /\ Yup.isValid ProfileSkeleton.profileSchema
        (ProfileSkeleton.values (Js.Str "Ana") (Js.Str "ana@x.com") Js.Null
                                Js.Null Js.Null) = true)
  /\ (Yup.isValid Profile.profileSchema
        (Profile.values (Js.Str "Ana") (Js.Str "ana@x.com") Js.Null
                        (Js.Str "123456") (Js.Str "")) = false
      /\ Yup.isValid ProfileSkeleton.profileSchema
           (ProfileSkeleton.values (Js.Str "Ana") (Js.Str "ana@x.com") Js.Null
                                   (Js.Str "123456") (Js.Str "")) = false)
  /\ (Yup.isValid Profile.profileSchema
        (Profile.values (Js.Str "Ana") (Js.Str "ana@x.com") Js.Null
                        (Js.Str "123456") (Js.Str "654321")) = false
      /\ Yup.isValid ProfileSkeleton.profileSchema
           (ProfileSkeleton.values (Js.Str "Ana") (Js.Str "ana@x.com") Js.Null
                                   (Js.Str "123456") (Js.Str "654321"))
         = false).
Proof.
  split; [|split].
  - apply (proj1 (profile_password_validation
                    (Js.Str "Ana") (Js.Str "ana@x.com") Js.Null Js.Null
                    Js.Null)); reflexivity.
  - apply (proj1 (proj2 (profile_password_validation
                           (Js.Str "Ana") (Js.Str "ana@x.com") Js.Null
                           (Js.Str "123456") (Js.Str "")))); reflexivity.
  - apply (proj2 (proj2 (profile_password_validation
                           (Js.Str "Ana") (Js.Str "ana@x.com") Js.Null
                           (Js.Str "123456") (Js.Str "654321")))).
    + left. reflexivity.
    + discriminate.
Defined.

(** ** The avatar upload *)

(** The guard of the upload, on a reported size in bytes. *)
Lemma too_large_iff (n : Z) :
  Profile.too_large (Some n) = true <-> (5 * 1024 * 1024 < n)%Z.
Proof.
  unfold Profile.too_large, Qle_bool, Qdiv, Qmult, Qinv, inject_Z. cbn.
  rewrite andb_true_iff, !negb_true_iff, Z.eqb_neq, Z.leb_gt. lia.
Qed.

(** C9.  When the picked file is reported with a size above 5 MB (5 * 1024
    * 1024 bytes), [handleUserPhotoSelect] shows the error toast and
    returns: the run awaits the picker and the file information only, so no
    request is issued, [updateUserProfile] is not called, whatever it is,
    and the user in memory and both persisted keys are as before. *)
Theorem avatar_size_guard (updateUserProfile : UserDTO -> M unit)
        (env : Env) (w : World) (asset : Asset) (others : list Asset)
        (n : Z) :
  rejects env launchImageLibraryAsync = None ->
  photoSelected env = mkPicked false (asset :: others) ->
  uri asset <> EmptyString ->
  rejects env (getInfoAsync (uri asset)) = None ->
  photoInfo_size env = Some n ->
  (5 * 1024 * 1024 < n)%Z ->
  Profile.handleUserPhotoSelect updateUserProfile env w
  = (Returned tt,
     with_trace
       (trace w ++
        [SetPhotoIsLoading true;
         Await launchImageLibraryAsync;
         Await (getInfoAsync (uri asset));
         ToastShow "Essa imagem é muito grande. Escolha uma de até 5MB."
                   "red.500";
         SetPhotoIsLoading false]) w).
Proof.
  intros Hpick Hsel Huri Hinfo Hsize Hbig.
  apply too_large_iff in Hbig.
  unfold Profile.handleUserPhotoSelect, try_finally, try_catch, bind, await,
         emit, ask, ret, with_trace.
  cbn. rewrite Hpick. cbn. rewrite Hsel. cbn.
  destruct (String.eqb_spec (uri asset) ""); [contradiction|].
  cbn. rewrite Hinfo. cbn. rewrite Hsize, Hbig. cbn.
  rewrite <- !app_assoc. reflexivity.
Qed.

Lemma avatar_size_guard_witness :
  Profile.handleUserPhotoSelect AuthContext.updateUserProfile calm signed_in
  = (Returned tt,
     with_trace
       ([] ++
        [SetPhotoIsLoading true;
         Await launchImageLibraryAsync;
         Await (getInfoAsync "file:///photos/me.JPG");
         ToastShow "Essa imagem é muito grande. Escolha uma de até 5MB."
                   "red.500";
         SetPhotoIsLoading false]) signed_in).
Proof.
  apply (avatar_size_guard AuthContext.updateUserProfile calm signed_in
           (mkAsset "file:///photos/me.JPG" (Some "image")) [] 6000000%Z);
    try reflexivity.
  discriminate.
Defined.

(** A picture within the limit is uploaded, and the profile is updated with
    the avatar the server names. *)
Lemma avatar_upload_within_limit :
  Profile.handleUserPhotoSelect AuthContext.updateUserProfile
    (mkEnv (rejects calm) (sessions_data calm) (avatar_data calm)
           (photoSelected calm) (Some 1048576%Z))
    signed_in
  = (Returned tt,
     mkWorld (Profile.set_avatar (Some "ana.png") ana) false
       (Some "Bearer tok")
       (Some (Profile.set_avatar (Some "ana.png") ana)) (Some "tok")
       [SetPhotoIsLoading true;
        Await launchImageLibraryAsync;
        Await (getInfoAsync "file:///photos/me.JPG");
        Await (api_patch "/users/avatar"
                 [("avatar",
                   mkPhotoFile "ana.jpg" "file:///photos/me.JPG"
                               "image/JPG")]);
        SetUser (Profile.set_avatar (Some "ana.png") ana);
        Await (AsyncStorage_setUser (Profile.set_avatar (Some "ana.png") ana));
        ToastShow "Foto atualizada com sucesso!" "green.500";
        SetPhotoIsLoading false]).
Proof. reflexivity. Qed.

(** ** Further properties of the session context *)

(** X1.  A sign-in that goes through survives a restart: when the request
    and both writes are fulfilled and the response carries a user and a
    non-empty token, [signIn] returns with that user in memory, under both
    keys and in the header, and a restart followed by [loadUserData] brings
    back exactly the same session. *)
Theorem signIn_survives_restart (email password : string) (env env' : Env)
        (w : World) (u : UserDTO) (t : string) :
  rejects env (api_post "/sessions"
                 [("email", email); ("password", password)]) = None ->
  data_user (sessions_data env) = Some u ->
  data_token (sessions_data env) = Some t -> t <> EmptyString ->
  rejects env (AsyncStorage_setUser u) = None ->
  rejects env (AsyncStorage_setToken t) = None ->
  rejects env' AsyncStorage_getUser = None ->
  rejects env' AsyncStorage_getToken = None ->
  let w1 := snd (AuthContext.signIn email password env w) in
  let w2 := snd (AuthContext.loadUserData env' (AuthContext.restart w1)) in
  fst (AuthContext.signIn email password env w) = Returned tt
  /\ session w1 = (u, Some u, Some t, Some (Bearer t))
  /\ session w2 = session w1
  /\ isLoadingUserStorage w2 = false.
Proof.
  intros Hpost Hu Ht Hne Hsu Hst Hgu Hgt.
  apply String.eqb_neq in Hne.
  unfold AuthContext.restart, AuthContext.mount.
  async_unfold. cbn. rewrite Hpost. cbn. rewrite Hu, Ht. cbn.
  rewrite Hne. cbn. rewrite Hsu. cbn. rewrite Hst. cbn.
  rewrite Hgu. cbn. rewrite Hgt. cbn. rewrite Hne. cbn.
  repeat split; reflexivity.
Qed.

Lemma signIn_survives_restart_witness :
  let w1 := snd (AuthContext.signIn "ana@x.com" "123456" calm
                   (AuthContext.mount None None)) in
  let w2 := snd (AuthContext.loadUserData calm (AuthContext.restart w1)) in
  session w1 = (ana, Some ana, Some "tok", Some (Bearer "tok"))
  /\ session w2 = session w1.
Proof.
  pose proof (signIn_survives_restart "ana@x.com" "123456" calm calm
                (AuthContext.mount None None) ana "tok"
                eq_refl eq_refl eq_refl) as H.
  cbv zeta in H.
  assert (Hne : "tok" <> EmptyString) by discriminate.
  specialize (H Hne eq_refl eq_refl eq_refl eq_refl).
  exact (conj (proj1 (proj2 H)) (proj1 (proj2 (proj2 H)))).
Defined.

(** X2.  The order of a sign-in that goes through: the request, then the
    two writes between the two settings of the loading flag, and only then
    the header and the user in memory. *)
Theorem signIn_persists_before_it_installs (email password : string)
        (env : Env) (w : World) (u : UserDTO) (t : string) :
  rejects env (api_post "/sessions"
                 [("email", email); ("password", password)]) = None ->
  data_user (sessions_data env) = Some u ->
  data_token (sessions_data env) = Some t -> t <> EmptyString ->
  rejects env (AsyncStorage_setUser u) = None ->
  rejects env (AsyncStorage_setToken t) = None ->
  events (AuthContext.signIn email password) env w
  = [Await (api_post "/sessions" [("email", email); ("password", password)]);
     SetIsLoadingUserStorage true;
     Await (AsyncStorage_setUser u);
     Await (AsyncStorage_setToken t);
     SetIsLoadingUserStorage false;
     SetAuthorization (Bearer t);
     SetUser u].
Proof.
  intros Hpost Hu Ht Hne Hsu Hst.
  apply String.eqb_neq in Hne.
  async_unfold. cbn. rewrite Hpost. cbn. rewrite Hu, Ht. cbn.
  rewrite Hne. cbn. rewrite Hsu. cbn. rewrite Hst. cbn. reflexivity.
Qed.

Lemma signIn_persists_before_it_installs_witness :
  events (AuthContext.signIn "ana@x.com" "123456") calm signed_in
  = [Await (api_post "/sessions"
              [("email", "ana@x.com"); ("password", "123456")]);
     SetIsLoadingUserStorage true;
     Await (AsyncStorage_setUser ana);
     Await (AsyncStorage_setToken "tok");
     SetIsLoadingUserStorage false;
     SetAuthorization (Bearer "tok");
     SetUser ana].
Proof.
  apply (signIn_persists_before_it_installs "ana@x.com" "123456" calm
           signed_in ana "tok"); try reflexivity.
  discriminate.
Defined.

(** X3.  A sign-out whose two removals are fulfilled is final: after a
    restart, [loadUserData] finds nothing to restore, whatever its storage
    reads do; the user stays the empty sentinel and no header is set. *)
Theorem signOut_survives_restart (env env' : Env) (w : World) :
  rejects env AsyncStorage_removeUser = None ->
  rejects env AsyncStorage_removeToken = None ->
  let w1 := snd (AuthContext.signOut env w) in
  let w2 := snd (AuthContext.loadUserData env' (AuthContext.restart w1)) in
  session w2 = (empty_user, None, None, None)
  /\ isLoadingUserStorage w2 = false.
Proof.
  intros Hru Hrt.
  unfold AuthContext.restart, AuthContext.mount.
  async; split; reflexivity.
Qed.

Lemma signOut_survives_restart_witness :
  session (snd (AuthContext.loadUserData calm
                  (AuthContext.restart
                     (snd (AuthContext.signOut calm signed_in)))))
  = (empty_user, None, None, None).
Proof.
  exact (proj1 (signOut_survives_restart calm calm signed_in
                  eq_refl eq_refl)).
Defined.

(** X4.  A sign-out whose first removal is rejected only looks like one:
    the user in memory is the empty sentinel and the error propagates, but
    both keys are still there, and after a restart [loadUserData] signs the
    same user in again. *)
Theorem failed_signOut_is_undone_by_restart (env env' : Env) (w : World)
        (u : UserDTO) (t : string) (e : Error) :
  USER_STORAGE w = Some u -> AUTH_TOKEN_STORAGE w = Some t ->
  t <> EmptyString ->
  rejects env AsyncStorage_removeUser = Some e ->
  rejects env' AsyncStorage_getUser = None ->
  rejects env' AsyncStorage_getToken = None ->
  let w1 := snd (AuthContext.signOut env w) in
  let w2 := snd (AuthContext.loadUserData env' (AuthContext.restart w1)) in
  fst (AuthContext.signOut env w) = Thrown e
  /\ user w1 = empty_user
  /\ session w2 = (u, Some u, Some t, Some (Bearer t)).
Proof.
  intros Hu Ht Hne Hru Hgu Hgt.
  apply String.eqb_neq in Hne.
  unfold AuthContext.restart, AuthContext.mount.
  async. rewrite Hu, Ht. cbn. rewrite Hne. cbn. repeat split; reflexivity.
Qed.

Lemma failed_signOut_is_undone_by_restart_witness :
  user (snd (AuthContext.signOut removal_fails signed_in)) = empty_user
  /\ session (snd (AuthContext.loadUserData calm
                     (AuthContext.restart
                        (snd (AuthContext.signOut removal_fails signed_in)))))
     = (ana, Some ana, Some "tok", Some (Bearer "tok")).
Proof.
  assert (Hne : "tok" <> EmptyString) by discriminate.
  exact (proj2 (failed_signOut_is_undone_by_restart removal_fails calm
                  signed_in ana "tok" (Failure "storage")
                  eq_refl eq_refl Hne eq_refl eq_refl eq_refl)).
Defined.

(** X5.  When a storage read of [loadUserData] is rejected, the error
    propagates as it is, the in-memory user, both keys and the header are
    unchanged, and the loading flag still ends [false]. *)
Theorem loadUserData_read_failure (env : Env) (w : World) (e : Error) :
  rejects env AsyncStorage_getUser = Some e
  \/ (rejects env AsyncStorage_getUser = None
      /\ rejects env AsyncStorage_getToken = Some e) ->
  fst (AuthContext.loadUserData env w) = Thrown e
  /\ session (snd (AuthContext.loadUserData env w)) = session w
  /\ isLoadingUserStorage (snd (AuthContext.loadUserData env w)) = false.
Proof.
  intros [Hu | [Hu Ht]]; async; repeat split; reflexivity.
Qed.

Lemma loadUserData_read_failure_witness :
  fst (AuthContext.loadUserData token_read_fails
         (AuthContext.mount (Some ana) (Some "tok")))
  = Thrown (Failure "storage").
Proof.
  refine (proj1 (loadUserData_read_failure token_read_fails _
                   (Failure "storage") _)).
  right. split; reflexivity.
Defined.

(** X6.  [loadUserData] is idempotent on the session state: with its reads
    fulfilled, running it a second time changes nothing. *)
Theorem loadUserData_idempotent (env env' : Env) (w : World) :
  rejects env AsyncStorage_getUser = None ->
  rejects env AsyncStorage_getToken = None ->
  rejects env' AsyncStorage_getUser = None ->
  rejects env' AsyncStorage_getToken = None ->
  let w1 := snd (AuthContext.loadUserData env w) in
  session (snd (AuthContext.loadUserData env' w1)) = session w1.
Proof.
  intros Hu Ht Hu' Ht'. async.
  destruct (AUTH_TOKEN_STORAGE w) as [t|] eqn:Et; cbn;
    [destruct (String.eqb t "") eqn:E; cbn|];
    destruct (USER_STORAGE w) as [u|] eqn:Eu; cbn;
    rewrite ?Hu', ?Ht'; cbn; rewrite ?Et, ?Eu; cbn; rewrite ?E; cbn;
    rewrite ?Eu; reflexivity.
Qed.

Lemma loadUserData_idempotent_witness :
  session (snd (AuthContext.loadUserData calm
                  (snd (AuthContext.loadUserData calm
                          (AuthContext.mount (Some ana) (Some "tok"))))))
  = session (snd (AuthContext.loadUserData calm
                    (AuthContext.mount (Some ana) (Some "tok")))).
Proof.
  exact (loadUserData_idempotent calm calm
           (AuthContext.mount (Some ana) (Some "tok"))
           eq_refl eq_refl eq_refl eq_refl).
Defined.

(** X7.  When the write of [updateUserProfile] is rejected, the error
    propagates, but the user in memory has already been replaced while the
    user key keeps the old record: memory and storage disagree, and after a
    restart [loadUserData] brings the old record back. *)
Theorem updateUserProfile_write_failure (u old : UserDTO) (t : string)
        (e : Error) (env env' : Env) (w : World) :
  USER_STORAGE w = Some old -> AUTH_TOKEN_STORAGE w = Some t ->
  t <> EmptyString ->
  rejects env (AsyncStorage_setUser u) = Some e ->
  rejects env' AsyncStorage_getUser = None ->
  rejects env' AsyncStorage_getToken = None ->
  let w1 := snd (AuthContext.updateUserProfile u env w) in
  let w2 := snd (AuthContext.loadUserData env' (AuthContext.restart w1)) in
  fst (AuthContext.updateUserProfile u env w) = Thrown e
  /\ user w1 = u /\ USER_STORAGE w1 = Some old
  /\ user w2 = old.
Proof.
  intros Ho Ht Hne Hsave Hgu Hgt.
  apply String.eqb_neq in Hne.
  unfold AuthContext.restart, AuthContext.mount.
  async. rewrite Ho, Ht. cbn. rewrite Hne. cbn. repeat split; reflexivity.
Qed.

Lemma updateUserProfile_write_failure_witness :
  let renamed := mkUser (Some "1") (Some "Ana Maria") (Some "ana@x.com") None in
  let w1 :=
    snd (AuthContext.updateUserProfile renamed user_write_fails signed_in) in
  user w1 = renamed /\ USER_STORAGE w1 = Some ana
  /\ user (snd (AuthContext.loadUserData calm (AuthContext.restart w1))) = ana.
Proof.
  assert (Hne : "tok" <> EmptyString) by discriminate.
  exact (proj2 (updateUserProfile_write_failure
                  (mkUser (Some "1") (Some "Ana Maria") (Some "ana@x.com")
                          None)
                  ana "tok" (Failure "storage") user_write_fails calm
                  signed_in eq_refl eq_refl Hne eq_refl eq_refl eq_refl)).
Defined.

(** What one operation can do to the header and to the token key. *)
Lemma perform_header_and_token (op : Op) (env : Env) (w : World) :
  let w' := snd (perform op env w) in
  (Authorization w' = Authorization w
   \/ exists t, t <> EmptyString /\ Authorization w' = Some (Bearer t))
  /\ (AUTH_TOKEN_STORAGE w' = AUTH_TOKEN_STORAGE w
      \/ AUTH_TOKEN_STORAGE w' = None
      \/ exists t, t <> EmptyString /\ AUTH_TOKEN_STORAGE w' = Some t).
Proof.
  destruct op as [email password | | u |]; cbn [perform].
  - pose proof (signIn_session email password env w) as H. cbv zeta in H.
    unfold session in H.
    destruct H as [Hs | [(_ & HT & HA) | (u & t & Hne & Hs)]].
    + injection Hs as _ _ HT HA. rewrite HT, HA. auto.
    + rewrite HT, HA. auto.
    + injection Hs as _ _ HT HA. rewrite HT, HA. split.
      * right. exists t. auto.
      * right. right. exists t. auto.
  - async; auto.
  - async; auto.
  - pose proof (loadUserData_session env w) as H. cbv zeta in H.
    destruct H as (_ & HT & _ & [[_ HA] | (u & t & _ & _ & Hne & _ & HA)]);
      rewrite HT, HA; split; auto.
    right. exists t. auto.
Qed.

(** X8.  No operation of the context ever clears the header: once a bearer
    header is installed it stays installed through every later [signIn],
    [signOut], [updateUserProfile] and [loadUserData], whatever fails. *)
Theorem header_is_never_cleared (op : Op) (env : Env) (w : World) :
  Authorization w <> None ->
  Authorization (snd (perform op env w)) <> None.
Proof.
  intros Hh.
  destruct (perform_header_and_token op env w) as [[H | (t & _ & H)] _];
    rewrite H; [exact Hh | discriminate].
Qed.

Lemma header_is_never_cleared_witness :
  Authorization (snd (perform OpSignOut calm signed_in)) <> None.
Proof.
  apply (header_is_never_cleared OpSignOut calm signed_in). discriminate.
Defined.

(** X9.  In every reachable state the header is either unset or the bearer
    of a non-empty token. *)
Theorem header_is_a_bearer (w : World) :
  reachable at_any_time w ->
  Authorization w = None
  \/ exists t, t <> EmptyString /\ Authorization w = Some (Bearer t).
Proof.
  induction 1 as [su st | w env op Hr IH _].
  - left. reflexivity.
  - destruct (perform_header_and_token op env w) as [[H | H] _].
    + rewrite H. exact IH.
    + right. exact H.
Qed.

Lemma header_is_a_bearer_witness :
  Authorization (snd (perform (OpSignIn "ana@x.com" "123456") calm
                        (AuthContext.mount None None))) = None
  \/ exists t, t <> EmptyString
               /\ Authorization
                    (snd (perform (OpSignIn "ana@x.com" "123456") calm
                            (AuthContext.mount None None)))
                  = Some (Bearer t).
Proof.
  apply header_is_a_bearer.
  apply (reachable_step at_any_time _ calm (OpSignIn "ana@x.com" "123456"));
    [apply reachable_mount | exact I].
Defined.

(** X10.  The context never persists an empty token: if the token key does
    not hold the empty string before an operation, it does not hold it
    afterwards. *)
Theorem stored_token_is_never_empty (op : Op) (env : Env) (w : World) :
  AUTH_TOKEN_STORAGE w <> Some EmptyString ->
  AUTH_TOKEN_STORAGE (snd (perform op env w)) <> Some EmptyString.
Proof.
  intros Hw.
  destruct (perform_header_and_token op env w)
    as [_ [H | [H | (t & Hne & H)]]]; rewrite H.
  - exact Hw.
  - discriminate.
  - intros E. injection E as E. contradiction.
Qed.

Lemma stored_token_is_never_empty_witness :
  AUTH_TOKEN_STORAGE
    (snd (perform (OpSignIn "ana@x.com" "123456") calm
            (AuthContext.mount None None))) <> Some EmptyString.
Proof.
  apply (stored_token_is_never_empty (OpSignIn "ana@x.com" "123456") calm
           (AuthContext.mount None None)).
  discriminate.
Defined.

(** X11.  Once the loading flag is [false] it is [false] again after every
    operation, fulfilled or not: the gate that the consumers wait on does
    not close again between operations. *)
Theorem loading_flag_stays_false (op : Op) (env : Env) (w : World) :
  isLoadingUserStorage w = false ->
  isLoadingUserStorage (snd (perform op env w)) = false.
Proof.
  intros Hw. destruct op as [email password | | u |]; cbn [perform].
  - async; try exact Hw.
    destruct (data_user (sessions_data env)) as [u|]; cbn; [|exact Hw].
    destruct (Js.truthy_string (data_token (sessions_data env))) as [t|];
      cbn; [|exact Hw].
    repeat next_call; reflexivity.
  - async; reflexivity.
  - async; exact Hw.
  - async; try reflexivity.
    destruct (Js.truthy_string (AUTH_TOKEN_STORAGE w));
      destruct (USER_STORAGE w); reflexivity.
Qed.

Lemma loading_flag_stays_false_witness :
  isLoadingUserStorage
    (snd (perform (OpUpdateUserProfile ana) calm signed_in)) = false.
Proof.
  apply (loading_flag_stays_false (OpUpdateUserProfile ana) calm signed_in).
  reflexivity.
Defined.

(** ** Further properties of the screens *)

(** A [try] whose [catch] block cannot throw cannot throw. *)
Lemma try_catch_returns (body : M unit) (handler : Error -> M unit)
      (env : Env) (w : World) :
  (forall e env' w', fst (handler e env' w') = Returned tt) ->
  fst (try_catch body handler env w) = Returned tt.
Proof.
  intros H. unfold try_catch.
  destruct (body env w) as [[[]|e] w']; [reflexivity | apply H].
Qed.

(** X12.  The handlers of the screens swallow every error: whatever the
    context functions they are given do and whatever is rejected,
    [handleSignUp] and [handleUserPhotoSelect] return normally. *)
Theorem screen_handlers_never_throw :
  (forall signIn form env w,
      fst (SignUp.handleSignUp signIn form env w) = Returned tt)
  /\ (forall updateUserProfile env w,
      fst (Profile.handleUserPhotoSelect updateUserProfile env w)
      = Returned tt).
Proof.
  split.
  - intros signIn form env w. unfold SignUp.handleSignUp.
    apply try_catch_returns. reflexivity.
  - intros updateUserProfile env w.
    unfold Profile.handleUserPhotoSelect, try_finally.
    match goal with
    | |- context [try_catch ?b ?h env w] =>
        pose proof (try_catch_returns b h env w (fun _ _ _ => eq_refl)) as H;
        destruct (try_catch b h env w) as [r w']
    end.
    cbn in *. exact H.
Qed.

(** X13.  When the registration request is rejected, [handleSignUp] resets
    its loading flag and shows one red toast, whose title is the message of
    an application error and a fixed sentence for any other failure;
    [signIn] is not called and the session state is untouched. *)
Theorem handleSignUp_registration_rejected
        (signIn : string -> string -> M unit) (form : SignUp.FormDataProps)
        (env : Env) (w : World) (e : Error) :
  rejects env (api_post "/users" (users_body form)) = Some e ->
  SignUp.handleSignUp signIn form env w
  = (Returned tt,
     with_trace
       (trace w ++
        [SetIsLoading true;
         Await (api_post "/users" (users_body form));
         SetIsLoading false;
         ToastShow (signUp_error_title e) "red.500"]) w).
Proof.
  intros Hpost.
  unfold SignUp.handleSignUp, SignUp.handleSignUp_catch, try_catch, bind,
         await, emit, ask, with_trace, users_body in *.
  cbn. rewrite Hpost. cbn. rewrite <- !app_assoc. reflexivity.
Qed.

Lemma handleSignUp_registration_rejected_witness :
  SignUp.handleSignUp AuthContext.signIn
    (SignUp.mkFormData "Ana" "ana@x.com" "123456" "123456")
    (mkEnv (fun c => match c with
                     | api_post "/users" _ =>
                         Some (AppError "E-mail já cadastrado.")
                     | _ => None
                     end)
           (sessions_data calm) (avatar_data calm) (photoSelected calm)
           (photoInfo_size calm))
    (AuthContext.mount None None)
  = (Returned tt,
     with_trace
       ([] ++
        [SetIsLoading true;
         Await (api_post "/users"
                  [("name", "Ana"); ("email", "ana@x.com");
                   ("password", "123456")]);
         SetIsLoading false;
         ToastShow "E-mail já cadastrado." "red.500"])
       (AuthContext.mount None None)).
Proof.
  apply (handleSignUp_registration_rejected AuthContext.signIn
           (SignUp.mkFormData "Ana" "ana@x.com" "123456" "123456") _
           (AuthContext.mount None None) (AppError "E-mail já cadastrado.")).
  reflexivity.
Defined.

(** X14.  When the account is created but the session request that follows
    is rejected, the same toast reports the error of the session request:
    the account exists, nobody is signed in, and the session state is as it
    was. *)
Theorem handleSignUp_signIn_rejected (form : SignUp.FormDataProps)
        (env : Env) (w : World) (e : Error) :
  rejects env (api_post "/users" (users_body form)) = None ->
  rejects env (api_post "/sessions" (sessions_body form)) = Some e ->
  SignUp.handleSignUp AuthContext.signIn form env w
  = (Returned tt,
     with_trace
       (trace w ++
        [SetIsLoading true;
         Await (api_post "/users" (users_body form));
         Await (api_post "/sessions" (sessions_body form));
         SetIsLoading false;
         ToastShow (signUp_error_title e) "red.500"]) w).
Proof.
  intros Husers Hsessions.
  unfold SignUp.handleSignUp, SignUp.handleSignUp_catch, users_body,
         sessions_body, with_trace in *.
  async_unfold. cbn. rewrite Husers. cbn. rewrite Hsessions. cbn.
  rewrite <- !app_assoc. reflexivity.
Qed.

Lemma handleSignUp_signIn_rejected_witness :
  SignUp.handleSignUp AuthContext.signIn
    (SignUp.mkFormData "Ana" "ana@x.com" "123456" "123456")
    (mkEnv (fun c => match c with
                     | api_post "/sessions" _ => Some (Failure "network")
                     | _ => None
                     end)
           (sessions_data calm) (avatar_data calm) (photoSelected calm)
           (photoInfo_size calm))
    (AuthContext.mount None None)
  = (Returned tt,
     with_trace
       ([] ++
        [SetIsLoading true;
         Await (api_post "/users"
                  [("name", "Ana"); ("email", "ana@x.com");
                   ("password", "123456")]);
         Await (api_post "/sessions"
                  [("email", "ana@x.com"); ("password", "123456")]);
         SetIsLoading false;
         ToastShow
           "Não foi possível criar a conta. Tente novamente mais tarde."
           "red.500"])
       (AuthContext.mount None None)).
Proof.
  apply (handleSignUp_signIn_rejected
           (SignUp.mkFormData "Ana" "ana@x.com" "123456" "123456") _
           (AuthContext.mount None None) (Failure "network"));
    reflexivity.
Defined.

(** X15.  When the registration, the session request and both writes go
    through, [handleSignUp] installs the session of the returned user; it
    shows no toast and never resets its own loading flag. *)
Theorem handleSignUp_success (form : SignUp.FormDataProps)
        (env : Env) (w : World) (u : UserDTO) (t : string) :
  rejects env (api_post "/users" (users_body form)) = None ->
  rejects env (api_post "/sessions" (sessions_body form)) = None ->
  data_user (sessions_data env) = Some u ->
  data_token (sessions_data env) = Some t -> t <> EmptyString ->
  rejects env (AsyncStorage_setUser u) = None ->
  rejects env (AsyncStorage_setToken t) = None ->
  SignUp.handleSignUp AuthContext.signIn form env w
  = (Returned tt,
     mkWorld u false (Some (Bearer t)) (Some u) (Some t)
       (trace w ++
        [SetIsLoading true;
         Await (api_post "/users" (users_body form));
         Await (api_post "/sessions" (sessions_body form));
         SetIsLoadingUserStorage true;
         Await (AsyncStorage_setUser u);
         Await (AsyncStorage_setToken t);
         SetIsLoadingUserStorage false;
         SetAuthorization (Bearer t);
         SetUser u])).
Proof.
  intros Husers Hsessions Hu Ht Hne Hsu Hst.
  apply String.eqb_neq in Hne.
  unfold SignUp.handleSignUp, SignUp.handleSignUp_catch, users_body,
         sessions_body in *.
  async_unfold. cbn. rewrite Husers. cbn. rewrite Hsessions. cbn.
  rewrite Hu, Ht. cbn. rewrite Hne. cbn. rewrite Hsu. cbn. rewrite Hst. cbn.
  rewrite <- !app_assoc. reflexivity.
Qed.

Lemma handleSignUp_success_witness :
  SignUp.handleSignUp AuthContext.signIn
    (SignUp.mkFormData "Ana" "ana@x.com" "123456" "123456") calm
    (AuthContext.mount None None)
  = (Returned tt,
     mkWorld ana false (Some (Bearer "tok")) (Some ana) (Some "tok")
       ([] ++
        [SetIsLoading true;
         Await (api_post "/users"
                  [("name", "Ana"); ("email", "ana@x.com");
                   ("password", "123456")]);
         Await (api_post "/sessions"
                  [("email", "ana@x.com"); ("password", "123456")]);
         SetIsLoadingUserStorage true;
         Await (AsyncStorage_setUser ana);
         Await (AsyncStorage_setToken "tok");
         SetIsLoadingUserStorage false;
         SetAuthorization (Bearer "tok");
         SetUser ana])).
Proof.
  apply (handleSignUp_success
           (SignUp.mkFormData "Ana" "ana@x.com" "123456" "123456") calm
           (AuthContext.mount None None) ana "tok"); try reflexivity.
  discriminate.
Defined.

(** ** Further properties of the schemas *)

Lemma truthy_Str (v : Js.JsVal) :
  Js.truthy v = true <-> exists s, v = Js.Str s /\ s <> EmptyString.
Proof.
  destruct v as [| |s]; cbn; split; try discriminate.
  - intros (s & H & _). discriminate H.
  - intros (s & H & _). discriminate H.
  - intros H. exists s. split; [reflexivity|].
    apply negb_true_iff, String.eqb_neq in H. exact H.
  - intros (s' & H & Hne). injection H as <-.
    apply negb_true_iff, String.eqb_neq. exact Hne.
Qed.



(** X17.  The two profile screens validate alike: a form is accepted by
    the schema of the wired screen exactly when the schema of the earlier
    screen accepts it, whatever is typed as the old password in either. *)
Theorem profile_schemas_agree (n e o o' p c : Js.JsVal) :
  Yup.isValid Profile.profileSchema (Profile.values n e o p c)
  = Yup.isValid ProfileSkeleton.profileSchema
                (ProfileSkeleton.values n e o' p c).
Proof.
  rewrite profileSchema_spec, profileSkeletonSchema_spec. reflexivity.
Qed.

(** X18.  The wired profile schema accepts exactly the forms with a
    non-empty name and e-mail in which either the new password and its
    confirmation are both empty, or the new password has at least six
    characters and the confirmation equals it.  The old password plays no
    part. *)
Theorem profileSchema_accepts_iff (n e o p c : Js.JsVal) :
  Yup.isValid Profile.profileSchema (Profile.values n e o p c) = true
  <-> Js.truthy n = true /\ Js.truthy e = true
      /\ ((Js.truthy p = false /\ Js.truthy c = false)
          \/ (exists sp, p = Js.Str sp /\ 6 <= String.length sp /\ c = p)).
Proof.
  rewrite profileSchema_spec. unfold profile_ok.
  rewrite !andb_true_iff.
  destruct (Js.truthy p) eqn:Hp.
  - rewrite andb_true_iff, Nat.leb_le, JsVal_eqb_eq.
    apply truthy_Str in Hp. destruct Hp as (sp & -> & Hne). cbn.
    split.
    + intros [[Hn He] [Hl ->]]. repeat split; try assumption.
      right. exists sp. repeat split. exact Hl.
    + intros (Hn & He & [[F _] | (sp' & E & Hl & ->)]); [discriminate F|].
      injection E as <-. repeat split; assumption.
  - rewrite negb_true_iff. split.
    + intros [[Hn He] Hc]. repeat split; try assumption. left. auto.
    + intros (Hn & He & [[_ Hc] | (sp & -> & Hl & ->)]).
      * repeat split; assumption.
      * exfalso. cbn in Hp. apply negb_false_iff, String.eqb_eq in Hp.
        subst sp. cbn in Hl. lia.
Qed.

Lemma profileSchema_accepts_iff_witness :
  Yup.isValid Profile.profileSchema
    (Profile.values (Js.Str "Ana") (Js.Str "ana@x.com") Js.Undefined
                    (Js.Str "segredo") (Js.Str "segredo")) = true.
Proof.
  apply (proj2 (profileSchema_accepts_iff
                  (Js.Str "Ana") (Js.Str "ana@x.com") Js.Undefined
                  (Js.Str "segredo") (Js.Str "segredo"))).
  split; [reflexivity | split; [reflexivity|]].
  right. exists "segredo". repeat split. cbn. lia.
Defined.

(** X19.  The wired profile form as it opens, with its default values and
    nothing typed, is accepted exactly when the user of the context has a
    non-empty name and a non-empty e-mail; for the empty sentinel it is
    refused. *)
Theorem profile_defaultValues_valid (u : UserDTO) :
  Yup.isValid Profile.profileSchema (profile_defaultValues u) = true
  <-> (exists s, DTO.name u = Some s /\ s <> EmptyString)
      /\ (exists s, DTO.email u = Some s /\ s <> EmptyString).
Proof.
  unfold profile_defaultValues. rewrite profileSchema_accepts_iff.
  rewrite !truthy_Str.
  split.
  - intros ((sn & Hn & Hne) & (se & He & Hee) & _). split.
    + exists sn. destruct (DTO.name u); [|discriminate Hn].
      injection Hn as ->. auto.
    + exists se. destruct (DTO.email u); [|discriminate He].
      injection He as ->. auto.
  - intros ((sn & -> & Hne) & (se & -> & Hee)). cbn.
    repeat split; eauto.
Qed.

Lemma profile_defaultValues_valid_witness :
  Yup.isValid Profile.profileSchema (profile_defaultValues ana) = true.
Proof.
  apply (proj2 (profile_defaultValues_valid ana)).
  split; [exists "Ana" | exists "ana@x.com"];
    (split; [reflexivity | discriminate]).
Defined.

(** ** Further properties of the avatar upload *)




(** X21.  When nothing usable is picked (the picker is cancelled, returns
    no asset, or the first asset has an empty uri), the handler only
    toggles its loading flag around the picker: the file information is not
    read, no request is made and no toast is shown. *)
Theorem avatar_nothing_picked (updateUserProfile : UserDTO -> M unit)
        (env : Env) (w : World) :
  rejects env launchImageLibraryAsync = None ->
  canceled (photoSelected env) = true
  \/ assets (photoSelected env) = []
  \/ (exists asset others,
         assets (photoSelected env) = asset :: others
         /\ uri asset = EmptyString) ->
  Profile.handleUserPhotoSelect updateUserProfile env w
  = (Returned tt,
     with_trace
       (trace w ++
        [SetPhotoIsLoading true; Await launchImageLibraryAsync;
         SetPhotoIsLoading false]) w).
Proof.
  intros Hpick Hnone.
  unfold Profile.handleUserPhotoSelect, try_finally, try_catch, bind, await,
         emit, ask, ret, with_trace.
  cbn. rewrite Hpick. cbn.
  destruct (canceled (photoSelected env)) eqn:Hc; cbn.
  - rewrite <- !app_assoc. reflexivity.
  - destruct Hnone as [F | [Ha | (asset & others & Ha & Hu)]];
      [discriminate F | |]; rewrite Ha; cbn; rewrite ?Hu; cbn;
      rewrite <- !app_assoc; reflexivity.
Qed.

Lemma avatar_nothing_picked_witness :
  Profile.handleUserPhotoSelect AuthContext.updateUserProfile
    (mkEnv (rejects calm) (sessions_data calm) (avatar_data calm)
           (mkPicked true []) (photoInfo_size calm))
    signed_in
  = (Returned tt,
     with_trace
       ([] ++
        [SetPhotoIsLoading true; Await launchImageLibraryAsync;
         SetPhotoIsLoading false]) signed_in).
Proof.
  apply (avatar_nothing_picked AuthContext.updateUserProfile
           (mkEnv (rejects calm) (sessions_data calm) (avatar_data calm)
                  (mkPicked true []) (photoInfo_size calm))
           signed_in eq_refl).
  left. reflexivity.
Defined.



(** *** The file extension *)

Lemma split_not_nil (sep : ascii) (s : string) : Js.split sep s <> [].
Proof.
  destruct s as [|c s]; cbn; [discriminate|].
  destruct (Ascii.eqb c sep); [discriminate|].
  destruct (Js.split sep s); discriminate.
Qed.

(** Splitting and joining on the same separator gives the string back. *)
Lemma join_split (sep : ascii) (s : string) : join sep (Js.split sep s) = s.
Proof.
  induction s as [|c s IH]; cbn; [reflexivity|].
  destruct (Ascii.eqb_spec c sep) as [->|Hc].
  - pose proof (split_not_nil sep s) as Hn.
    destruct (Js.split sep s) as [|seg segs]; [contradiction|].
    change (join sep (EmptyString :: seg :: segs))
      with (String sep (join sep (seg :: segs))).
    rewrite IH. reflexivity.
  - pose proof (split_not_nil sep s) as Hn.
    destruct (Js.split sep s) as [|seg segs]; [contradiction|].
    destruct segs as [|seg' segs]; cbn in *; rewrite <- IH; reflexivity.
Qed.

Lemma split_without (sep : ascii) (s : string) :
  Forall (fun segment => without sep segment = true) (Js.split sep s).
Proof.
  induction s as [|c s IH]; cbn.
  - constructor; [reflexivity | constructor].
  - destruct (Ascii.eqb c sep) eqn:Hc.
    + constructor; [reflexivity | exact IH].
    + pose proof (split_not_nil sep s) as Hn.
      destruct (Js.split sep s) as [|seg segs]; [contradiction|].
      inversion IH as [|? ? Hseg Hsegs]; subst.
      constructor; [|exact Hsegs].
      unfold without in *. cbn. rewrite Hc. cbn. exact Hseg.
Qed.

Lemma join_ends_with_last (sep : ascii) (segments : list string) :
  segments <> [] ->
  exists prefix,
    join sep segments = (prefix ++ last segments EmptyString)%string.
Proof.
  induction segments as [|seg segs IH]; [contradiction|]. intros _.
  destruct segs as [|seg' segs].
  - exists EmptyString. reflexivity.
  - destruct IH as (prefix & Hp); [discriminate|].
    exists (seg ++ String sep prefix)%string.
    change (join sep (seg :: seg' :: segs))
      with (seg ++ String sep (join sep (seg' :: segs)))%string.
    change (last (seg :: seg' :: segs) EmptyString)
      with (last (seg' :: segs) EmptyString).
    rewrite Hp.
    generalize (last (seg' :: segs) EmptyString) as ending. intros ending.
    clear. induction seg as [|c seg IH]; cbn; [reflexivity|].
    f_equal. exact IH.
Qed.

(** X23.  The file extension that the upload takes from the uri of the
    picture contains no dot and is the end of the uri; for a uri without a
    dot it is the whole uri. *)
Theorem fileExtension_is_the_dotless_end (uri : string) :
  let fileExtension := Js.pop (Js.split "." uri) in
  without "." fileExtension = true
  /\ (exists prefix, uri = (prefix ++ fileExtension)%string)
  /\ (without "." uri = true -> fileExtension = uri).
Proof.
  cbv zeta. unfold Js.pop. repeat split.
  - pose proof (split_without "." uri) as H.
    pose proof (split_not_nil "." uri) as Hn.
    induction H as [|seg segs Hseg Hsegs IH]; [contradiction|].
    destruct segs as [|seg' segs]; [exact Hseg|].
    apply IH. discriminate.
  - destruct (join_ends_with_last "." (Js.split "." uri)
                (split_not_nil "." uri)) as (prefix & Hp).
    rewrite join_split in Hp. exists prefix. exact Hp.
  - intros H. induction uri as [|c s IH]; [reflexivity|].
    unfold without in H. cbn in H. apply andb_true_iff in H.
    destruct H as [Hc Hs]. apply negb_true_iff in Hc.
    cbn. rewrite Hc.
    pose proof (split_not_nil "." s) as Hn.
    specialize (IH Hs).
    destruct (Js.split "." s) as [|seg segs] eqn:E; [contradiction|].
    assert (segs = []) as ->.
    { pose proof (join_split "." s) as J. rewrite E in J.
      destruct segs as [|seg' segs]; [reflexivity|]. exfalso.
      change (join "." (seg :: seg' :: segs))
        with (seg ++ String "." (join "." (seg' :: segs)))%string in J.
      rewrite <- J in Hs. clear - Hs.
      induction seg as [|d seg IHs]; cbn in Hs; [discriminate Hs|].
      unfold without in *. cbn in Hs. apply andb_true_iff in Hs.
      apply IHs, Hs. }
    cbn in *. rewrite IH. reflexivity.
Qed.

Lemma fileExtension_is_the_dotless_end_witness :
  Js.pop (Js.split "." "avatar") = "avatar".
Proof.
  apply (proj2 (proj2 (fileExtension_is_the_dotless_end "avatar"))).
  reflexivity.
Defined.

(** ** The earlier profile screen: picking a photo *)

(** X24.  Picking a photo in the earlier profile screen never touches the
    session: whatever is picked and whatever is rejected, the handler
    returns normally, the user, both keys, the header and the loading flag
    of the context are as before, and the photo of the screen is either the
    one it had or the uri of a picked asset that passed the size guard. *)
Theorem photo_preview_leaves_the_session (userPhoto : string)
        (env : Env) (w : World) :
  let run := ProfileSkeletonScreen.handleUserPhotoSelect userPhoto env w in
  session (snd run) = session w
  /\ isLoadingUserStorage (snd run) = isLoadingUserStorage w
  /\ (fst run = Returned userPhoto
      \/ exists asset others,
          canceled (photoSelected env) = false
          /\ assets (photoSelected env) = asset :: others
          /\ uri asset <> EmptyString
          /\ Profile.too_large (photoInfo_size env) = false
          /\ fst run = Returned (uri asset)).
Proof.
  unfold ProfileSkeletonScreen.handleUserPhotoSelect.
  async_unfold. cbn. repeat next_call; auto.
  destruct (canceled (photoSelected env)) eqn:Hc; cbn; auto.
  destruct (assets (photoSelected env)) as [|asset others] eqn:Ha; cbn; auto.
  destruct (String.eqb_spec (uri asset) ""); cbn; auto.
  repeat next_call; auto.
  destruct (Profile.too_large (photoInfo_size env)) eqn:Hs; cbn; auto.
  repeat split. right. exists asset, others. auto.
Qed.

(** ** The earlier sign-up screen *)

(** X25.  The earlier sign-up screen accepts exactly the forms with a
    non-empty name and a non-empty e-mail that matches its pattern: the
    password and its confirmation are not looked at, so they may be empty
    or differ. *)
Theorem signUp_rules_accept_iff (n e p c : Js.JsVal) :
  SignUpSkeleton.isValid (SignUp.values n e p c) = true
  <-> exists sn se,
      n = Js.Str sn /\ sn <> EmptyString
      /\ e = Js.Str se /\ se <> EmptyString
      /\ SignUpSkeleton.pattern se = true.
Proof.
  unfold SignUpSkeleton.isValid, SignUpSkeleton.errors,
         SignUpSkeleton.rules, SignUpSkeleton.validateField, SignUp.values.
  cbn [flat_map Yup.prop String.eqb Ascii.eqb Bool.eqb
       SignUpSkeleton.required SignUpSkeleton.rule_pattern app].
  split.
  - destruct n as [| |[|a sn]], e as [| |[|b se]]; cbn;
      try discriminate.
    destruct (SignUpSkeleton.pattern (String b se)) eqn:Hp;
      [|discriminate].
    intros _. exists (String a sn), (String b se).
    repeat split; try discriminate. exact Hp.
  - intros (sn & se & -> & Hn & -> & He & Hp).
    destruct sn as [|a sn]; [contradiction|].
    destruct se as [|b se]; [contradiction|].
    cbn. rewrite Hp. reflexivity.
Qed.

Lemma signUp_rules_accept_iff_witness :
  SignUpSkeleton.isValid
    (SignUp.values (Js.Str "Ana") (Js.Str "ana@x.com") Js.Undefined
                   (Js.Str "123")) = true.
Proof.
  apply (proj2 (signUp_rules_accept_iff
                  (Js.Str "Ana") (Js.Str "ana@x.com") Js.Undefined
                  (Js.Str "123"))).
  exists "Ana", "ana@x.com".
  repeat split; try discriminate; reflexivity.
Defined.

Lemma join_snoc (sep : ascii) (segments : list string) (s : string) :
  segments <> [] ->
  join sep (segments ++ [s])
  = (join sep segments ++ String sep s)%string.
Proof.
  induction segments as [|seg segs IH]; [contradiction|]. intros _.
  destruct segs as [|seg' segs]; [reflexivity|].
  change (join sep ((seg :: seg' :: segs) ++ [s]))
    with (seg ++ String sep (join sep ((seg' :: segs) ++ [s])))%string.
  change (join sep (seg :: seg' :: segs))
    with (seg ++ String sep (join sep (seg' :: segs)))%string.
  rewrite IH by discriminate.
  generalize (join sep (seg' :: segs)) as middle. intros middle.
  clear. induction seg as [|c seg IH]; cbn; [reflexivity|].
  f_equal. exact IH.
Qed.

(** X26.  Every e-mail that the pattern of the earlier sign-up screen lets
    through has the shape [local@domain.tld], with one at sign, a non-empty
    local part, a non-empty domain and a final group of at least two
    letters. *)
Theorem pattern_shape (s : string) :
  SignUpSkeleton.pattern s = true ->
  exists local domain tld,
    s = (local ++ String "@" (domain ++ String "." tld))%string
    /\ local <> EmptyString /\ domain <> EmptyString
    /\ without "@" local = true /\ without "@" domain = true
    /\ without "@" tld = true
    /\ Yup.all_chars SignUpSkeleton.is_letter tld = true
    /\ 2 <= String.length tld.
Proof.
  unfold SignUpSkeleton.pattern. intros H.
  pose proof (join_split "@" s) as Hjoin.
  pose proof (split_without "@" s) as Ws.
  destruct (Js.split "@" s) as [|local [|rest [|? ?]]]; try discriminate H.
  pose proof (Forall_inv Ws) as Wl.
  pose proof (Forall_inv (Forall_inv_tail Ws)) as Wr. cbn beta in Wl, Wr.
  apply andb_true_iff in H. destruct H as [Hl H].
  apply andb_true_iff in Hl. destruct Hl as [Hl _].
  pose proof (join_split "." rest) as Jr.
  destruct (rev (Js.split "." rest)) as [|tld [|b before]] eqn:Er;
    try discriminate H.
  apply (f_equal (@rev string)) in Er. rewrite rev_involutive in Er.
  cbn [rev] in Er.
  change (rev (b :: before)) with (rev before ++ [b]) in H.
  rewrite Er in Jr.
  rewrite join_snoc in Jr by (destruct (rev before); discriminate).
  repeat (apply andb_true_iff in H; destruct H as [H ?]).
  exists local, (join "." (rev before ++ [b])), tld.
  assert (Wd : without "@" (join "." (rev before ++ [b])) = true
               /\ without "@" tld = true).
  { rewrite <- Jr in Wr. clear - Wr.
    induction (join "." (rev before ++ [b])) as [|c d IH]; cbn in *.
    - split; [reflexivity | exact Wr].
    - unfold without in *. cbn in Wr. apply andb_true_iff in Wr.
      destruct Wr as [Hc Hd]. destruct (IH Hd) as [I1 I2].
      split; [cbn; rewrite Hc; exact I1 | exact I2]. }
  repeat split.
  - rewrite <- Hjoin. cbn [join]. rewrite Jr. reflexivity.
  - intros ->. discriminate Hl.
  - intros E. rewrite E in H. discriminate H.
  - exact Wl.
  - apply Wd.
  - apply Wd.
  - assumption.
  - apply Nat.leb_le. assumption.
Qed.

Lemma pattern_shape_witness :
  exists local domain tld,
    "ana@x.com" = (local ++ String "@" (domain ++ String "." tld))%string
    /\ local <> EmptyString /\ domain <> EmptyString
    /\ without "@" local = true /\ without "@" domain = true
    /\ without "@" tld = true
    /\ Yup.all_chars SignUpSkeleton.is_letter tld = true
    /\ 2 <= String.length tld.
Proof.
  apply (pattern_shape "ana@x.com"). reflexivity.
Defined.

(** ** Saving the profile form *)

(** X27.  [handleProfileUpdate] always finishes: whatever the request and
    [updateUserProfile] do, it returns normally and [isUpdating] is [false]
    at the end. *)
Theorem handleProfileUpdate_always_finishes
        (updateUserProfile : UserDTO -> M unit) (put_users : option Error)
        (data : Yup.Obj) (screen : ProfileUpdate.ScreenState)
        (env : Env) (w : World) :
  exists screen',
    fst (ProfileUpdate.handleProfileUpdate updateUserProfile put_users data
           screen env w) = Returned screen'
    /\ ProfileUpdate.isUpdating screen' = false.
Proof.
  unfold ProfileUpdate.handleProfileUpdate, try_catch, bind, modify, get,
         emit, ret, throw.
  destruct put_users as [e|]; cbn.
  - eexists. split; reflexivity.
  - destruct (updateUserProfile _ env _) as [[[]|e] w']; cbn;
      eexists; split; reflexivity.
Qed.

(** X28.  When the request is rejected, the profile is not touched:
    [updateUserProfile] is not called, whatever it is, the user in memory
    and the storage are as before, the form keeps its dirty state, and one
    red toast shows the message of an application error or a fixed
    sentence. *)
Theorem handleProfileUpdate_request_rejected
        (updateUserProfile : UserDTO -> M unit) (e : Error)
        (data : Yup.Obj) (screen : ProfileUpdate.ScreenState)
        (env : Env) (w : World) :
  ProfileUpdate.handleProfileUpdate updateUserProfile (Some e) data screen
                                    env w
  = (Returned (ProfileUpdate.mkScreenState
                 false (ProfileUpdate.isDirty screen)),
     with_trace
       (trace w ++ [ToastShow (ProfileUpdate.error_title e) "red.500"]) w).
Proof. reflexivity. Qed.

(** X29.  When the request and the write are fulfilled, saving the form
    changes the name of the user, in memory and under the user key, to the
    name of the form and nothing else: the other fields, the token key and
    the header are as before; the form is reset and a green toast is
    shown. *)
Theorem handleProfileUpdate_renames_only
        (data : Yup.Obj) (screen : ProfileUpdate.ScreenState)
        (env : Env) (w : World) :
  let renamed :=
    ProfileUpdate.set_name
      (ProfileUpdate.field_of (Yup.prop "name" data)) (user w) in
  rejects env (AsyncStorage_setUser renamed) = None ->
  ProfileUpdate.handleProfileUpdate AuthContext.updateUserProfile None data
                                    screen env w
  = (Returned (ProfileUpdate.mkScreenState false false),
     mkWorld renamed (isLoadingUserStorage w) (Authorization w)
       (Some renamed) (AUTH_TOKEN_STORAGE w)
       (trace w ++
        [SetUser renamed; Await (AsyncStorage_setUser renamed);
         ToastShow "Perfil atualizado com sucesso!" "green.500"])).
Proof.
  cbv zeta. intros Hsave.
  unfold ProfileUpdate.handleProfileUpdate.
  async_unfold. cbn. rewrite Hsave. cbn.
  rewrite <- !app_assoc. reflexivity.
Qed.

Lemma handleProfileUpdate_renames_only_witness :
  ProfileUpdate.handleProfileUpdate AuthContext.updateUserProfile None
    (Profile.values (Js.Str "Ana Maria") (Js.Str "ana@x.com") Js.Null
                    Js.Null Js.Null)
    (ProfileUpdate.mkScreenState false true) calm signed_in
  = (Returned (ProfileUpdate.mkScreenState false false),
     mkWorld (mkUser (Some "1") (Some "Ana Maria") (Some "ana@x.com") None)
       false (Some (Bearer "tok"))
       (Some (mkUser (Some "1") (Some "Ana Maria") (Some "ana@x.com") None))
       (Some "tok")
       ([] ++
        [SetUser (mkUser (Some "1") (Some "Ana Maria") (Some "ana@x.com")
                         None);
         Await (AsyncStorage_setUser
                  (mkUser (Some "1") (Some "Ana Maria") (Some "ana@x.com")
                          None));
         ToastShow "Perfil atualizado com sucesso!" "green.500"])).
Proof.
  apply (handleProfileUpdate_renames_only
           (Profile.values (Js.Str "Ana Maria") (Js.Str "ana@x.com") Js.Null
                           Js.Null Js.Null)
           (ProfileUpdate.mkScreenState false true) calm signed_in).
  reflexivity.
Defined.

(** X30.  The user of the context is renamed before [updateUserProfile] is
    called, because the handler changes the object it got from the context
    in place.  So even when [updateUserProfile] does nothing but throw, the
    user in memory carries the new name although the red toast reports a
    failure; and when the write of the real [updateUserProfile] is rejected,
    the user in memory carries the new name while the user key keeps the
    old record and the form stays dirty. *)
Theorem handleProfileUpdate_renames_despite_failure
        (data : Yup.Obj) (screen : ProfileUpdate.ScreenState)
        (env : Env) (w : World) (e : Error) :
  let renamed :=
    ProfileUpdate.set_name
      (ProfileUpdate.field_of (Yup.prop "name" data)) (user w) in
  ProfileUpdate.handleProfileUpdate (fun _ => throw e) None data screen env w
  = (Returned (ProfileUpdate.mkScreenState
                 false (ProfileUpdate.isDirty screen)),
     with_trace
       (trace w ++ [ToastShow (ProfileUpdate.error_title e) "red.500"])
       (with_user renamed w))
  /\ (rejects env (AsyncStorage_setUser renamed) = Some e ->
      ProfileUpdate.handleProfileUpdate AuthContext.updateUserProfile None
                                        data screen env w
      = (Returned (ProfileUpdate.mkScreenState
                     false (ProfileUpdate.isDirty screen)),
         mkWorld renamed (isLoadingUserStorage w) (Authorization w)
           (USER_STORAGE w) (AUTH_TOKEN_STORAGE w)
           (trace w ++
            [SetUser renamed; Await (AsyncStorage_setUser renamed);
             ToastShow (ProfileUpdate.error_title e) "red.500"]))).
Proof.
  cbv zeta. split; [reflexivity|].
  intros Hsave.
  unfold ProfileUpdate.handleProfileUpdate.
  async_unfold. cbn. rewrite Hsave. cbn.
  rewrite <- !app_assoc. reflexivity.
Qed.

Lemma handleProfileUpdate_renames_despite_failure_witness :
  let data := Profile.values (Js.Str "Ana Maria") (Js.Str "ana@x.com")
                             Js.Null Js.Null Js.Null in
  let run := ProfileUpdate.handleProfileUpdate AuthContext.updateUserProfile
               None data (ProfileUpdate.mkScreenState false true)
               user_write_fails signed_in in
  DTO.name (user (snd run)) = Some "Ana Maria"
  /\ USER_STORAGE (snd run) = Some ana.
Proof.
  cbv zeta.
  rewrite (proj2 (handleProfileUpdate_renames_despite_failure
                    (Profile.values (Js.Str "Ana Maria") (Js.Str "ana@x.com")
                                    Js.Null Js.Null Js.Null)
                    (ProfileUpdate.mkScreenState false true)
                    user_write_fails signed_in (Failure "storage"))
                 eq_refl).
  split; reflexivity.
Defined.
